(** * @quave/logger: a shallow embedding of the logging core

    The development follows the JavaScript sources:
    - [JS]          the fragment of JavaScript values, conversions and
                    exceptions the logger relies on;
    - [Environment] src/utils/environment.js;
    - [Errors]      src/utils/errors.js;
    - [LogLevels]   src/transports/base.js;
    - [Slack]       src/transports/slack.js (shouldHandle, sanitizeFields);
    - [Logger]      src/logger.js (createLogger, error, errorBackground);
    - [Vocabulary]  the predicates the properties are stated with;
    - [Samples]     concrete values, stores and configurations.

    Definitions come first; the properties follow, one module of facts for
    each part of the sources. *)

From Stdlib Require Import String Ascii List ZArith Bool Arith Lia DecimalString.
Import ListNotations.
Local Open Scope string_scope.
Set Warnings "-register-all".

(* ===================================================================== *)
(** * JavaScript values *)
(* ===================================================================== *)

Module JS.

(** Object identity: the position of the object in the store. *)
Definition addr := nat.

(** Numbers. Only what the logger observes of a number matters here: its
    truthiness and its decimal rendering. Finite numbers are the
    integer-valued ones. *)
Inductive number : Type :=
| NaN
| Infinity (negative : bool)
| Int (z : Z).

(** Values. An array or a plain object is either an object of the store,
    known by its identity ([VRef]), which can be shared and can be part of a
    cycle, or a fresh one given by its content ([VArray], [VObject]): what an
    array literal, [Array.prototype.map] or an object literal builds, referenced
    from one place only. *)
Inductive value : Type :=
| VUndefined
| VNull
| VBool (b : bool)
| VNumber (n : number)
| VString (s : string)
| VBigInt (z : Z)
| VSymbol (description : string)
| VArray (items : list value)
| VObject (props : list (string * value))
| VRef (a : addr).

(** Completions. An exception is an [Error] object (what the engine and
    ordinary code throw), identified by its [message], a string. A getter
    or a [toString] that throws another value ([throw null], an object with
    a [message] of its own making) is not represented. *)
Inductive completion (A : Type) : Type :=
| Return (a : A)
| Throw (message : string).
Arguments Return {A} a.
Arguments Throw {A} message.

Definition bind {A B} (c : completion A) (k : A -> completion B) : completion B :=
  match c with
  | Return a => k a
  | Throw m => Throw m
  end.

Notation "x <- c ;; k" := (bind c (fun x => k))
  (at level 61, c at next level, right associativity).

(** [try { body } catch (e) { handler(e.message) }] *)
Definition try_catch {A} (body : completion A) (handler : string -> completion A)
  : completion A :=
  match body with
  | Return a => Return a
  | Throw m => handler m
  end.

(** Objects of the store. *)
Inductive class : Type :=
| PlainClass        (* an ordinary object *)
| ArrayClass        (* Array.isArray *)
| ErrorClass        (* instanceof Error *)
| FunctionClass.    (* typeof === 'function' *)

(** An own property is a data property or an accessor; reading an accessor
    runs its getter, which returns or throws. *)
Inductive slot : Type :=
| Data (v : value)
| Accessor (get : completion value).

Record object : Type := mkObject {
  obj_class : class;
  (** own enumerable properties, in insertion order *)
  obj_slots : list (string * slot);
  (** properties a read finds and an enumeration does not: own properties
      that are not enumerable (the [message] and [stack] of an [Error]) and
      properties of the prototype chain *)
  obj_hidden : list (string * slot);
  (** the elements, for an array *)
  obj_items : list value;
  (** the outcome of converting the object to a string (its [toString]) *)
  obj_string : completion string;
  (** the name of the constructor inherited from the prototype chain, absent
      for an object without prototype *)
  obj_constructor : option string
}.

Definition store := list object.

Definition lookup (h : store) (a : addr) : option object := nth_error h a.

(** ** Property lists *)

Fixpoint assoc {A} (k : string) (l : list (string * A)) : option A :=
  match l with
  | [] => None
  | (k', x) :: l' => if String.eqb k k' then Some x else assoc k l'
  end.

(** [o[k] = x] on a fresh object, and the property that an object literal
    or a spread defines: an existing key keeps its position. The key
    [__proto__] is treated as any other key, which is right for a literal
    with a computed key and for a spread; assigned to, it would set the
    prototype of the object and add no property. *)
Fixpoint obj_set {A} (l : list (string * A)) (k : string) (x : A) : list (string * A) :=
  match l with
  | [] => [(k, x)]
  | (k', y) :: l' =>
      if String.eqb k k' then (k', x) :: l' else (k', y) :: obj_set l' k x
  end.

(** [{...a, ...b}] *)
Definition spread {A} (a b : list (string * A)) : list (string * A) :=
  fold_left (fun acc kv => obj_set acc (fst kv) (snd kv)) b a.

(** ** Conversions *)

(** [String(n)]: the decimal digits of the integer. JavaScript prints these
    digits for the integers it represents exactly, those of magnitude up to
    [2^53 - 1]; beyond it rounds, and from [10^21] on it prints an exponent. *)
Definition NumberToString (n : number) : string :=
  match n with
  | NaN => "NaN"
  | Infinity false => "Infinity"
  | Infinity true => "-Infinity"
  | Int z => NilZero.string_of_int (Z.to_int z)
  end.

(** ToBoolean *)
Definition truthy (v : value) : bool :=
  match v with
  | VUndefined | VNull => false
  | VBool b => b
  | VNumber NaN => false
  | VNumber (Int z) => negb (Z.eqb z 0)
  | VNumber (Infinity _) => true
  | VString s => negb (String.eqb s "")
  | VBigInt z => negb (Z.eqb z 0)
  | VSymbol _ | VArray _ | VObject _ | VRef _ => true
  end.

(** [a || b] *)
Definition or_else (a b : value) : value := if truthy a then a else b.

Definition typeof (h : store) (v : value) : string :=
  match v with
  | VUndefined => "undefined"
  | VNull => "object"
  | VBool _ => "boolean"
  | VNumber _ => "number"
  | VString _ => "string"
  | VBigInt _ => "bigint"
  | VSymbol _ => "symbol"
  | VArray _ | VObject _ => "object"
  | VRef a =>
      match lookup h a with
      | Some o => match obj_class o with FunctionClass => "function" | _ => "object" end
      | None => "object"
      end
  end.

Fixpoint join (sep : string) (l : list string) : string :=
  match l with
  | [] => ""
  | [s] => s
  | s :: l' => s ++ sep ++ join sep l'
  end.

Fixpoint sequence {A} (l : list (completion A)) : completion (list A) :=
  match l with
  | [] => Return []
  | c :: l' => x <- c ;; xs <- sequence l' ;; Return (x :: xs)
  end.

(** ToString, as a template literal applies it. *)
Fixpoint ToString (h : store) (v : value) : completion string :=
  match v with
  | VUndefined => Return "undefined"
  | VNull => Return "null"
  | VBool true => Return "true"
  | VBool false => Return "false"
  | VNumber n => Return (NumberToString n)
  | VString s => Return s
  | VBigInt z => Return (NilZero.string_of_int (Z.to_int z))
  | VSymbol _ => Throw "Cannot convert a Symbol value to a string"
  | VArray items =>
      strs <- sequence (map (fun item =>
                match item with
                | VUndefined | VNull => Return ""
                | _ => ToString h item
                end) items) ;;
      Return (join "," strs)
  | VObject _ => Return "[object Object]"
  | VRef a =>
      match lookup h a with
      | Some o => obj_string o
      | None => Return "[object Object]"
      end
  end.

(** The function [String(v)]: as ToString, but a symbol is described. *)
Definition String_ (h : store) (v : value) : completion string :=
  match v with
  | VSymbol d => Return ("Symbol(" ++ d ++ ")")
  | _ => ToString h v
  end.

Definition property (o : object) (key : string) : option slot :=
  match assoc key (obj_slots o) with
  | Some x => Some x
  | None => assoc key (obj_hidden o)
  end.

(** Properties every [Error] instance inherits from [Error.prototype]. *)
Definition inherited (c : class) (key : string) : value :=
  match c with
  | ErrorClass =>
      if String.eqb key "name" then VString "Error"
      else if String.eqb key "message" then VString ""
      else VUndefined
  | _ => VUndefined
  end.

(** [v.key], for the keys the logger reads ([message], [reason], [details],
    [stack], [name]): none of them is defined on a primitive or on an array. *)
Definition Get (h : store) (v : value) (key : string) : completion value :=
  match v with
  | VUndefined =>
      Throw ("Cannot read properties of undefined (reading '" ++ key ++ "')")
  | VNull =>
      Throw ("Cannot read properties of null (reading '" ++ key ++ "')")
  | VObject props =>
      match assoc key props with
      | Some x => Return x
      | None => Return VUndefined
      end
  | VRef a =>
      match lookup h a with
      | Some o =>
          match property o key with
          | Some (Data x) => Return x
          | Some (Accessor g) => g
          | None => Return (inherited (obj_class o) key)
          end
      | None => Return VUndefined
      end
  | _ => Return VUndefined
  end.

(** [Array.isArray(v)], with the elements. *)
Definition as_array (h : store) (v : value) : option (list value) :=
  match v with
  | VArray items => Some items
  | VRef a =>
      match lookup h a with
      | Some o => match obj_class o with ArrayClass => Some (obj_items o) | _ => None end
      | None => None
      end
  | _ => None
  end.

(** [String.prototype.includes]: [p] occurs in [s] (case-sensitive). *)
Fixpoint includes (s p : string) : bool :=
  String.prefix p s ||
  match s with
  | EmptyString => false
  | String _ s' => includes s' p
  end.

(** The method call [recv.includes(p)] with a string argument. Strings and
    arrays have the method (on an array it is membership); on the other
    values the logger meets here (numbers, booleans, objects of data)
    [includes] is undefined, and calling it is a TypeError. [what] is the
    source text of the receiver. *)
Definition call_includes (h : store) (what : string) (recv : value) (p : string)
  : completion bool :=
  match recv with
  | VString s => Return (includes s p)
  | _ =>
      match as_array h recv with
      | Some items =>
          Return (existsb (fun item =>
                    match item with VString s => String.eqb s p | _ => false end) items)
      | None => Throw (what ++ ".includes is not a function")
      end
  end.

(** [Array.prototype.some] with a callback that can throw. *)
Fixpoint some {A} (f : A -> completion bool) (l : list A) : completion bool :=
  match l with
  | [] => Return false
  | x :: l' => b <- f x ;; if b then Return true else some f l'
  end.

End JS.
Import JS.

(* ===================================================================== *)
(** * src/utils/environment.js *)
(* ===================================================================== *)

Module Environment.

Definition ENVIRONMENT_PRODUCTION := "production".
Definition ENVIRONMENT_STAGING := "staging".
Definition ENVIRONMENT_DEVELOPMENT := "development".

(** [process.env.NODE_ENV]: a string, or absent. *)
Definition NODE_ENV := option string.

(** [process.env.NODE_ENV || ENVIRONMENT_DEVELOPMENT] *)
Definition getEnvironment (env : NODE_ENV) : string :=
  match env with
  | Some s => if String.eqb s "" then ENVIRONMENT_DEVELOPMENT else s
  | None => ENVIRONMENT_DEVELOPMENT
  end.

Definition isProduction (env : NODE_ENV) : bool :=
  String.eqb (getEnvironment env) ENVIRONMENT_PRODUCTION.

Definition isStaging (env : NODE_ENV) : bool :=
  String.eqb (getEnvironment env) ENVIRONMENT_STAGING.

Definition isDevelopment (env : NODE_ENV) : bool :=
  String.eqb (getEnvironment env) ENVIRONMENT_DEVELOPMENT.

Definition getEnvironmentPrefix (env : NODE_ENV) : string :=
  let e := getEnvironment env in
  if String.eqb e ENVIRONMENT_PRODUCTION then "" else e ++ "-".

End Environment.

(* ===================================================================== *)
(** * src/utils/errors.js *)
(* ===================================================================== *)

Module Errors.

(** A fresh object used as a mapping from field names to values. *)
Definition fields := list (string * value).

Definition is_undefined (v : value) : bool :=
  match v with VUndefined => true | _ => false end.

Definition string_or_number (h : store) (v : value) : bool :=
  String.eqb (typeof h v) "string" || String.eqb (typeof h v) "number".

(** [fields.errorFormatError ? `${fields.errorFormatError}; ${clause}` : clause] *)
Definition format_error (h : store) (fs : fields) (clause : string) : completion value :=
  prev <- Get h (VObject fs) "errorFormatError" ;;
  if truthy prev
  then s <- ToString h prev ;; Return (VString (s ++ "; " ++ clause))
  else Return (VString clause).

(** The body of the [try] block of [extractErrorFields]. *)
Definition extract (h : store) (error : value) : completion fields :=
  if negb (String.eqb (typeof h error) "object") then
    raw <- String_ h error ;;
    Return [("errorFormatInvalid", VBool true);
            ("errorFormatError",
             VString ("Expected error to be an object, but received " ++ typeof h error));
            ("errorRawValue", VString raw)]
  else if match error with VNull => true | _ => false end then
    Return [("errorFormatInvalid", VBool true);
            ("errorFormatError", VString "Error object is null")]
  else
    let fs : fields := [] in
    (* message *)
    m <- Get h error "message" ;;
    fs <- (if negb (is_undefined m) then
             messageValue <- Get h error "message" ;;
             if string_or_number h messageValue then
               s <- String_ h messageValue ;;
               Return (obj_set fs "errorMessage" (VString s))
             else
               let fs := obj_set fs "errorFormatInvalid" (VBool true) in
               let fs := obj_set fs "errorFormatError"
                           (VString "error.message must be a string or number") in
               raw <- String_ h messageValue ;;
               Return (obj_set fs "errorRawMessage" (VString raw))
           else Return fs) ;;
    (* reason *)
    r <- Get h error "reason" ;;
    fs <- (if negb (is_undefined r) then
             reasonValue <- Get h error "reason" ;;
             if string_or_number h reasonValue then
               s <- String_ h reasonValue ;;
               Return (obj_set fs "errorReason" (VString s))
             else
               let fs := obj_set fs "errorFormatInvalid" (VBool true) in
               e <- format_error h fs "error.reason must be a string or number" ;;
               let fs := obj_set fs "errorFormatError" e in
               raw <- String_ h reasonValue ;;
               Return (obj_set fs "errorRawReason" (VString raw))
           else Return fs) ;;
    (* details *)
    d <- Get h error "details" ;;
    fs <- (if negb (is_undefined d) then
             detailsValue <- Get h error "details" ;;
             if string_or_number h detailsValue then
               s <- String_ h detailsValue ;;
               Return (obj_set fs "errorDetails" (VString s))
             else
               let fs := obj_set fs "errorFormatInvalid" (VBool true) in
               e <- format_error h fs "error.details must be a string or number" ;;
               let fs := obj_set fs "errorFormatError" e in
               raw <- String_ h detailsValue ;;
               Return (obj_set fs "errorRawDetails" (VString raw))
           else Return fs) ;;
    (* stack *)
    st <- Get h error "stack" ;;
    fs <- (if negb (is_undefined st) then
             stackValue <- Get h error "stack" ;;
             if String.eqb (typeof h stackValue) "string" then
               Return (obj_set fs "errorStack" stackValue)
             else
               let fs := obj_set fs "errorFormatInvalid" (VBool true) in
               e <- format_error h fs "error.stack must be a string" ;;
               Return (obj_set fs "errorFormatError" e)
           else Return fs) ;;
    Return fs.

(** [extractErrorFields(error)], lines 94-178. *)
Definition extractErrorFields (h : store) (error : value) : completion fields :=
  if negb (truthy error) then Return []
  else
    try_catch (extract h error)
      (fun extractionError_message =>
         raw <- String_ h error ;;
         Return [("errorFormatInvalid", VBool true);
                 ("errorFormatError",
                  VString ("Failed to extract error fields: " ++ extractionError_message));
                 ("errorRawValue", VString raw)]).

(** [shouldTreatAsWarning(error, patterns)], lines 193-204. *)
Definition shouldTreatAsWarning (h : store) (error : value) (patterns : list string)
  : completion bool :=
  if negb (truthy error) || Nat.eqb (length patterns) 0 then Return false
  else
    m <- Get h error "message" ;;
    let message := or_else m (VString "") in
    r <- Get h error "reason" ;;
    let reason := or_else r (VString "") in
    some (fun pattern =>
            b <- call_includes h "message" message pattern ;;
            if b then Return true else call_includes h "reason" reason pattern)
         patterns.

Definition DEFAULT_WARNING_PATTERNS : list string :=
  ["User not found"; "Failed to fetch"; "Load failed"; "Network error"; "Timeout"].

End Errors.


(* ===================================================================== *)
(** * src/transports/base.js *)
(* ===================================================================== *)

Module LogLevels.
Definition DEBUG := "debug".
Definition VERBOSE := "verbose".
Definition INFO := "info".
Definition WARN := "warn".
Definition ERROR := "error".
Definition ERROR_BACKGROUND := "error-background".
End LogLevels.

(* ===================================================================== *)
(** * src/transports/slack.js *)
(* ===================================================================== *)

Module Slack.

Import Environment Errors.

Module SlackLevels.
Definition VERBOSE := "verbose".
Definition INFO := "info".
Definition WARN := "warn".
Definition ERROR := "error".
Definition ERROR_BACKGROUND := "error-bg".
Definition ACTION := "action".
Definition BILLING := "billing".
Definition SUSPICIOUS := "suspicious".
End SlackLevels.

(** The options of the constructor that [shouldHandle] depends on; an option
    left out is [VUndefined]. *)
Record SlackConfig : Type := mkSlackConfig {
  cfg_webhookUrl : value;
  cfg_skipInDevelopment : value;
  cfg_enabled : value;
  cfg_appName : value
}.

Record SlackTransport : Type := mkSlackTransport {
  webhookUrl : value;
  skipInDevelopment : value;
  enabled : value;
  appName : value
}.

(** [new SlackTransport(config)] *)
Definition new_SlackTransport (config : SlackConfig) : SlackTransport :=
  {| webhookUrl := cfg_webhookUrl config;
     skipInDevelopment :=
       if negb (is_undefined (cfg_skipInDevelopment config))
       then cfg_skipInDevelopment config else VBool true;
     enabled :=
       if negb (is_undefined (cfg_enabled config))
       then cfg_enabled config else VBool true;
     appName := cfg_appName config |}.

(** [shouldHandle(level)]; [env] is the process-wide [NODE_ENV] at the time
    of the call. *)
Definition shouldHandle (this : SlackTransport) (level : string) (env : NODE_ENV) : bool :=
  if negb (truthy (enabled this)) || negb (truthy (webhookUrl this)) then false
  else if truthy (skipInDevelopment this) && isDevelopment env then false
  else existsb (String.eqb level)
         [LogLevels.WARN; LogLevels.ERROR; LogLevels.ERROR_BACKGROUND;
          SlackLevels.WARN; SlackLevels.ERROR; SlackLevels.ERROR_BACKGROUND].

(** ** [JSON.stringify] as a probe

    [stringify_throws fuel h stack v]: serializing [v] throws. It throws on a
    BigInt, on a getter that throws, and on an object that is already on the
    [stack] of the objects being serialized (a cycle). Functions, symbols and
    [undefined] are skipped, and only the enumerable own properties of an
    object are read; the objects are data, none defines [toJSON]. Every step
    into an object of the store takes one unit of [fuel] and puts the object
    on the stack. *)
Fixpoint stringify_throws (fuel : nat) (h : store) (stack : list addr) (v : value)
  {struct fuel} : bool :=
  (fix walk (v : value) : bool :=
     match v with
     | VBigInt _ => true
     | VArray items => existsb walk items
     | VObject props => existsb (fun kv => walk (snd kv)) props
     | VRef a =>
         match fuel with
         | O => true
         | S fuel' =>
             if existsb (Nat.eqb a) stack then true
             else
               match lookup h a with
               | None => false
               | Some o =>
                   match obj_class o with
                   | FunctionClass => false
                   | ArrayClass =>
                       existsb (stringify_throws fuel' h (a :: stack)) (obj_items o)
                   | _ =>
                       existsb (fun kv =>
                                  match snd kv with
                                  | Data x => stringify_throws fuel' h (a :: stack) x
                                  | Accessor (Return x) =>
                                      stringify_throws fuel' h (a :: stack) x
                                  | Accessor (Throw _) => true
                                  end) (obj_slots o)
                   end
               end
         end
     | _ => false
     end) v.

(** [JSON.stringify(v)] throws. The stack holds distinct objects of the
    store, so the fuel given here is never used up: any larger fuel gives the
    same answer ([SanitizeFacts.JSON_stringify_fuel]). *)
Definition JSON_stringify_throws (h : store) (v : value) : bool :=
  stringify_throws (S (length h)) h [] v.

(** ** sanitizeFields *)

(** [c?.name] *)
Definition optional_name (h : store) (c : value) : completion value :=
  match c with
  | VUndefined | VNull => Return VUndefined
  | _ => Get h c "name"
  end.

(** [value.constructor?.name] *)
Definition constructor_name (h : store) (v : value) : completion value :=
  match v with
  | VObject props =>
      match assoc "constructor" props with
      | Some c => optional_name h c
      | None => Return (VString "Object")
      end
  | VRef a =>
      match lookup h a with
      | Some o =>
          match property o "constructor" with
          | Some (Data c) => optional_name h c
          | Some (Accessor g) => c <- g ;; optional_name h c
          | None =>
              Return (match obj_constructor o with
                      | Some n => VString n
                      | None => VUndefined
                      end)
          end
      | None => Return (VString "Object")
      end
  | VArray _ => Return (VString "Array")
  | _ => Return VUndefined
  end.

Definition instanceof_Error (h : store) (v : value) : bool :=
  match v with
  | VRef a =>
      match lookup h a with
      | Some o => match obj_class o with ErrorClass => true | _ => false end
      | None => false
      end
  | _ => false
  end.

(** The [WeakSet] [seen]: the identities of the objects met so far. A fresh
    object has not been met and is met only once. *)
Definition seen_has (v : value) (seen : list addr) : bool :=
  match v with
  | VRef a => existsb (Nat.eqb a) seen
  | _ => false
  end.

Definition seen_add (v : value) (seen : list addr) : list addr :=
  match v with
  | VRef a => a :: seen
  | _ => seen
  end.

(** A computation that reads and updates [seen]; [None] when the fuel of the
    recursion is used up. An exception keeps the updates made before it. *)
Definition sanitizer (A : Type) := list addr -> option (completion A * list addr).

(** [items.map(f)], left to right; an exception ends it. *)
Fixpoint map_items (f : value -> sanitizer value) (items : list value)
  : sanitizer (list value) :=
  fun seen =>
    match items with
    | [] => Some (Return [], seen)
    | item :: rest =>
        match f item seen with
        | None => None
        | Some (Throw m, seen') => Some (Throw m, seen')
        | Some (Return x, seen') =>
            match map_items f rest seen' with
            | None => None
            | Some (Throw m, seen'') => Some (Throw m, seen'')
            | Some (Return xs, seen'') => Some (Return (x :: xs), seen'')
            end
        end
    end.

(** The [catch (stringifyError)] branch of [sanitizeValue]. *)
Definition non_serializable (h : store) (value : value) : completion JS.value :=
  if instanceof_Error h value then
    n <- Get h value "name" ;;
    let name := or_else n (VString "Error") in
    m <- Get h value "message" ;;
    message <- (if truthy m then Return m
                else s <- String_ h value ;; Return (VString s)) ;;
    st <- Get h value "stack" ;;
    let stack := or_else st VUndefined in
    Return (VObject [("name", name); ("message", message); ("stack", stack)])
  else
    c <- constructor_name h value ;;
    s <- ToString h (or_else c (VString "Object")) ;;
    Return (VString ("[Non-serializable " ++ s ++ "]")).

(** [sanitizeValue(value, depth)], lines 174-227. One unit of [fuel] per
    nested call. *)
Fixpoint sanitizeValue (fuel : nat) (h : store) (value : value) (depth : nat)
  {struct fuel} : sanitizer JS.value :=
  fun seen =>
    match fuel with
    | O => None
    | S fuel' =>
        if Nat.ltb 5 depth then Some (Return (VString "[Max depth reached]"), seen)
        else
          match value with
          | VNull | VUndefined => Some (Return value, seen)
          | VString _ | VNumber _ | VBool _ => Some (Return value, seen)
          | _ =>
              match as_array h value with
              | Some items =>
                  match map_items (fun item => sanitizeValue fuel' h item (depth + 1))
                          items seen with
                  | None => None
                  | Some (Throw m, seen') => Some (Throw m, seen')
                  | Some (Return xs, seen') => Some (Return (VArray xs), seen')
                  end
              | None =>
                  if String.eqb (typeof h value) "object" then
                    if seen_has value seen
                    then Some (Return (VString "[Circular Reference]"), seen)
                    else
                      let seen' := seen_add value seen in
                      if JSON_stringify_throws h value
                      then Some (non_serializable h value, seen')
                      else Some (Return value, seen')
                  else
                    Some (try_catch (s <- String_ h value ;; Return (VString s))
                            (fun _ => Return (VString "[Unable to convert to string]")),
                          seen)
              end
          end
    end.

(** [fieldError?.message || 'Unknown'] *)
Definition message_or_unknown (m : string) : string :=
  if String.eqb m "" then "Unknown" else m.

(** The loop over the entries that [Object.entries(fields)] has read
    ([SlackSend.sanitizeFields_of] does the reading). The [catch] of the
    body receives an [Error], the exception of the model, whose [message] is
    a string; [sanitized[key] = x] adds or replaces the field [key]. *)
Fixpoint sanitize_entries (fuel : nat) (h : store) (entries : fields)
  (sanitized : fields) (seen : list addr) : option (completion fields) :=
  match entries with
  | [] => Some (Return sanitized)
  | (key, value) :: rest =>
      match sanitizeValue fuel h value 0 seen with
      | None => None
      | Some (c, seen') =>
          match try_catch c
                  (fun m => Return (VString ("[Error sanitizing field: "
                                             ++ message_or_unknown m ++ "]"))) with
          | Throw m => Some (Throw m)
          | Return x => sanitize_entries fuel h rest (obj_set sanitized key x) seen'
          end
      end
  end.

(** [sanitizeFields(fields)], lines 170-239. *)
Definition sanitizeFields (fuel : nat) (h : store) (fields : fields)
  : option (completion Errors.fields) :=
  sanitize_entries fuel h fields [] [].

End Slack.

(* ===================================================================== *)
(** * src/logger.js *)
(* ===================================================================== *)

Module Logger.

Import Environment Errors.

(** The sinks of a logger: the console, the Slack transport, or a transport
    of the caller with its own [shouldHandle]. *)
Inductive transport : Type :=
| ConsoleTransport
| SlackTransport (t : Slack.SlackTransport)
| CustomTransport (name : string) (handles : string -> bool).

Definition transport_name (t : transport) : string :=
  match t with
  | ConsoleTransport => "console"
  | SlackTransport _ => "slack"
  | CustomTransport name _ => name
  end.

(** [transport.shouldHandle(level)]; the console inherits the answer of
    [BaseTransport]. *)
Definition transport_shouldHandle (t : transport) (level : string) (env : NODE_ENV) : bool :=
  match t with
  | ConsoleTransport => true
  | SlackTransport s => Slack.shouldHandle s level env
  | CustomTransport _ handles => handles level
  end.

(** One call of [sendToTransports]: its parameters and the transports that
    [shouldHandle] selects for it. *)
Record dispatch : Type := mkDispatch {
  d_level : string;
  d_message : value;
  d_args : list value;
  d_fields : fields;
  d_error : value;
  d_targets : list string
}.

(** What the logger reads and writes outside itself: the process-wide
    [process.env.NODE_ENV], the lines of [console.trace], and the calls of
    [sendToTransports] in order. *)
Record world : Type := mkWorld {
  process_env_NODE_ENV : NODE_ENV;
  traces : list string;
  dispatched : list dispatch
}.

Record Config : Type := mkConfig {
  config_appName : value;
  config_environment : option string;
  config_slack : Slack.SlackConfig;
  config_errorsToTreatAsWarnings : option (list string);
  config_transports : list transport
}.

(** What the closures of a logger hold. *)
Record logger : Type := mkLogger {
  transports : list transport;
  errorsToTreatAsWarnings : list string
}.

(** [createLogger(config)], lines 158-189. *)
Definition createLogger (config : Config) (w : world) : logger * world :=
  let slackConfig := config_slack config in
  let w' :=
    match config_environment config with
    | Some e =>
        if truthy (VString e)
        then {| process_env_NODE_ENV := Some e;
                traces := traces w;
                dispatched := dispatched w |}
        else w
    | None => w
    end in
  let transports :=
    ([ConsoleTransport]
    ++ (if truthy (Slack.cfg_webhookUrl slackConfig)
        then [SlackTransport
                (Slack.new_SlackTransport
                   {| Slack.cfg_webhookUrl := Slack.cfg_webhookUrl slackConfig;
                      Slack.cfg_skipInDevelopment := Slack.cfg_skipInDevelopment slackConfig;
                      Slack.cfg_enabled := Slack.cfg_enabled slackConfig;
                      Slack.cfg_appName := config_appName config |})]
        else [])
    ++ config_transports config)%list in
  ({| transports := transports;
      errorsToTreatAsWarnings :=
        match config_errorsToTreatAsWarnings config with
        | Some patterns => patterns
        | None => DEFAULT_WARNING_PATTERNS
        end |}, w').

(** [sendToTransports({ level, message, args, fields, error })]: the
    transports are selected with [shouldHandle]; delivery is not awaited. *)
Definition sendToTransports (l : logger) (level : string) (message : value)
  (args : list value) (fs : fields) (error : value) (w : world) : world :=
  {| process_env_NODE_ENV := process_env_NODE_ENV w;
     traces := traces w;
     dispatched :=
       (dispatched w ++
       [{| d_level := level;
           d_message := message;
           d_args := args;
           d_fields := fs;
           d_error := error;
           d_targets :=
             map transport_name
               (filter (fun t => transport_shouldHandle t level (process_env_NODE_ENV w))
                       (transports l)) |}])%list |}.

(** The [fields] of the entry that each selected transport is sent:
    [{ ...fields, ...extractErrorFields(error) }]. *)
Definition entry_fields (h : store) (fs : fields) (error : value) : completion fields :=
  extracted <- extractErrorFields h error ;;
  Return (spread fs extracted).

(** [validateErrorArgs(args)], lines 117-126. *)
Definition validateErrorArgs (args : list value) (w : world) : bool * world :=
  if Nat.eqb (length args) 0 || Nat.ltb 2 (length args) then
    (false,
     {| process_env_NODE_ENV := process_env_NODE_ENV w;
        traces := (traces w ++
          ["[Logger] error() should have 1-2 arguments: message (required) and error (optional)"])%list;
        dispatched := dispatched w |})
  else (true, w).

(** [error && shouldTreatAsWarning(error, errorsToTreatAsWarnings)] *)
Definition treated_as_warning (h : store) (l : logger) (error : value) : completion bool :=
  if truthy error then shouldTreatAsWarning h error (errorsToTreatAsWarnings l)
  else Return false.

(** [logger.error(...args)], lines 285-312. *)
Definition error (h : store) (l : logger) (args : list value) (w : world)
  : completion unit * world :=
  let (valid, w) := validateErrorArgs args w in
  if negb valid && isDevelopment (process_env_NODE_ENV w) then (Return tt, w)
  else
    let message := nth 0 args VUndefined in
    let error := nth 1 args VUndefined in
    match treated_as_warning h l error with
    | Throw m => (Throw m, w)
    | Return true =>
        match ToString h message with
        | Throw m => (Throw m, w)
        | Return s =>
            (Return tt,
             sendToTransports l LogLevels.WARN
               (VString (s ++ " [error treated as warn]")) [error] [] error w)
        end
    | Return false =>
        (Return tt,
         sendToTransports l LogLevels.ERROR message
           (if truthy error then [error] else []) [] error w)
    end.

(** [logger.errorBackground(...args)], lines 325-353. *)
Definition errorBackground (h : store) (l : logger) (args : list value) (w : world)
  : completion unit * world :=
  let (valid, w) := validateErrorArgs args w in
  if negb valid && isDevelopment (process_env_NODE_ENV w) then (Return tt, w)
  else
    let message := nth 0 args VUndefined in
    let error := nth 1 args VUndefined in
    match treated_as_warning h l error with
    | Throw m => (Throw m, w)
    | Return true =>
        match ToString h message with
        | Throw m => (Throw m, w)
        | Return s =>
            (Return tt,
             sendToTransports l LogLevels.WARN
               (VString (s ++ " [background error treated as warn]")) [error] [] error w)
        end
    | Return false =>
        (Return tt,
         sendToTransports l LogLevels.ERROR_BACKGROUND message
           (if truthy error then [error] else [])
           [("isBackground", VBool true)] error w)
    end.

End Logger.

(* ===================================================================== *)
(** * src/transports/console.js *)
(* ===================================================================== *)

Module Console.

(** The methods of [console] that the transport binds. *)
Inductive console_method : Type :=
| console_debug
| console_info
| console_warn
| console_error
| console_log.

(** [getConsoleMethod(level)] *)
Definition getConsoleMethod (level : string) : console_method :=
  if String.eqb level LogLevels.DEBUG then console_debug
  else if String.eqb level LogLevels.VERBOSE || String.eqb level LogLevels.INFO
  then console_info
  else if String.eqb level LogLevels.WARN then console_warn
  else if String.eqb level LogLevels.ERROR || String.eqb level LogLevels.ERROR_BACKGROUND
  then console_error
  else console_log.

(** One call [consoleMethod(message, ...args)]. *)
Record console_call : Type := mkCall {
  call_method : console_method;
  call_arguments : list value
}.

(** [send({ level, message, args })] *)
Definition send (level : string) (message : value) (args : list value) : console_call :=
  {| call_method := getConsoleMethod level; call_arguments := message :: args |}.

End Console.

(* ===================================================================== *)
(** * src/transports/slack.js: routing and [send] *)
(* ===================================================================== *)

Module SlackSend.

Import Environment Errors Slack.

(** The routing tables of a Slack transport, beside the fields of
    [Slack.SlackTransport]: [this.webhookUrls], [this.channels] and
    [this.channelPrefix]. *)
Record Routes : Type := mkRoutes {
  webhookUrls : value;
  channels : value;
  channelPrefix : value
}.

(** The constructor: [config.webhookUrls || {}], [config.channels || {}],
    [config.channelPrefix || 'logs']. *)
Definition new_Routes (cfg_webhookUrls cfg_channels cfg_channelPrefix : value) : Routes :=
  {| webhookUrls := or_else cfg_webhookUrls (VObject []);
     channels := or_else cfg_channels (VObject []);
     channelPrefix := or_else cfg_channelPrefix (VString "logs") |}.

(** [mapToSlackLevel(level)] *)
Definition mapToSlackLevel (level : string) : string :=
  if String.eqb level LogLevels.ERROR_BACKGROUND then SlackLevels.ERROR_BACKGROUND
  else if String.eqb level LogLevels.ERROR then SlackLevels.ERROR
  else if String.eqb level LogLevels.WARN then SlackLevels.WARN
  else if String.eqb level LogLevels.INFO then SlackLevels.INFO
  else level.

(** [getWebhookUrl(level)] *)
Definition getWebhookUrl (h : store) (this : SlackTransport) (r : Routes) (level : string)
  : completion value :=
  w <- (if String.eqb level LogLevels.WARN
        then Get h (webhookUrls r) "warn" else Return (VBool false)) ;;
  if truthy w then Get h (webhookUrls r) "warn"
  else
    e <- (if String.eqb level LogLevels.ERROR
             || String.eqb level LogLevels.ERROR_BACKGROUND
          then Get h (webhookUrls r) "error" else Return (VBool false)) ;;
    if truthy e then Get h (webhookUrls r) "error"
    else Return (webhookUrl this).

(** The method call [recv.startsWith(p)]: only a string has the method. *)
Definition call_startsWith (what : string) (recv : value) (p : string) : completion bool :=
  match recv with
  | VString s => Return (String.prefix p s)
  | _ => Throw (what ++ ".startsWith is not a function")
  end.

(** [c.startsWith('#') ? c : `#${c}`] *)
Definition with_hash (h : store) (what : string) (c : value) : completion value :=
  b <- call_startsWith what c "#" ;;
  if b then Return c
  else s <- ToString h c ;; Return (VString ("#" ++ s)).

(** [getChannel(level, customChannel)]; the keys of [this.channels] are the
    Slack level names. *)
Definition getChannel (h : store) (r : Routes) (level : string) (customChannel : value)
  : completion value :=
  if truthy customChannel then with_hash h "customChannel" customChannel
  else
    let slackLevel := mapToSlackLevel level in
    c <- Get h (channels r) slackLevel ;;
    if truthy c then
      ch <- Get h (channels r) slackLevel ;;
      with_hash h "ch" ch
    else Return VUndefined.

(** The keys [0], [1], ... of the elements of an array. *)
Fixpoint index_keys (i : nat) (items : list value) : fields :=
  match items with
  | [] => []
  | x :: rest => (NilZero.string_of_uint (Nat.to_uint i), x) :: index_keys (S i) rest
  end.

Fixpoint characters (s : string) : list value :=
  match s with
  | EmptyString => []
  | String c s' => VString (String c EmptyString) :: characters s'
  end.

(** Reading the own enumerable properties in order; a getter can throw. *)
Fixpoint read_slots (slots : list (string * slot)) : completion fields :=
  match slots with
  | [] => Return []
  | (k, Data x) :: rest => xs <- read_slots rest ;; Return ((k, x) :: xs)
  | (k, Accessor g) :: rest => x <- g ;; xs <- read_slots rest ;; Return ((k, x) :: xs)
  end.

(** What [{ ...v }] copies: the own enumerable properties of [v]; nothing for
    [undefined], [null], a boolean, a number, a BigInt or a symbol; the
    elements under their indices for an array, the characters for a string. *)
Definition own_enumerable (h : store) (v : value) : completion fields :=
  match v with
  | VObject props => Return props
  | VArray items => Return (index_keys 0 items)
  | VString s => Return (index_keys 0 (characters s))
  | VRef a =>
      match lookup h a with
      | Some o =>
          named <- read_slots (obj_slots o) ;;
          Return ((match obj_class o with
                   | ArrayClass => index_keys 0 (obj_items o)
                   | _ => []
                   end) ++ named)%list
      | None => Return []
      end
  | _ => Return []
  end.

(** [Object.entries(v)]: a TypeError on [undefined] and [null]; on the
    other values the own enumerable properties are read in order, and a
    getter that throws ends the reading. *)
Definition Object_entries (h : store) (v : value) : completion fields :=
  match v with
  | VUndefined | VNull => Throw "Cannot convert undefined or null to object"
  | _ => own_enumerable h v
  end.

(** [sanitizeFields(fields)], lines 170-239, on any argument.
    [Object.entries(fields)] is evaluated at the head of the loop, outside
    the [try] of its body; [Slack.sanitizeFields] is the loop on the entries
    read. *)
Definition sanitizeFields_of (fuel : nat) (h : store) (fields : value)
  : option (completion Errors.fields) :=
  match Object_entries h fields with
  | Throw m => Some (Throw m)
  | Return entries => sanitizeFields fuel h entries
  end.

(** [...(x && { key: x })] added to [fs]: nothing when [x] is falsy. *)
Definition set_if_truthy (fs : fields) (key : string) (x : value) : fields :=
  if truthy x then obj_set fs key x else fs.

(** [error?.constructor?.name] for the [errorType] field; a primitive has the
    constructor of its wrapper. *)
Definition error_constructor_name (h : store) (error : value) : completion value :=
  match error with
  | VUndefined | VNull => Return VUndefined
  | VBool _ => Return (VString "Boolean")
  | VNumber _ => Return (VString "Number")
  | VString _ => Return (VString "String")
  | VBigInt _ => Return (VString "BigInt")
  | VSymbol _ => Return (VString "Symbol")
  | _ => constructor_name h error
  end.

Definition format_notice : string :=
  String (ascii_of_nat 10) (String (ascii_of_nat 10)
    "⚠️ *Error Format Issue*: The error object could not be properly formatted for Slack.").

(** The data handed to [slack.send]. *)
Record payload : Type := mkPayload {
  p_channel : option value;
  p_text : value;
  p_fields : fields
}.

(** What [send] does: nothing, a post of [data] to [webhookUrl] (whose own
    failure is caught in the same way), or a failure before the post, caught
    and written to [console.error]. *)
Inductive outcome : Type :=
| Skipped
| Posted (webhookUrl : value) (data : payload)
| Failed (message : string).

(** The [try] block of [send] up to the object [data]; [None] when the fuel of
    [sanitizeFields] is used up. *)
Definition prepare (fuel : nat) (h : store) (this : SlackTransport) (r : Routes)
  (level : string) (message fields error customChannel : value)
  : option (completion (value * payload)) :=
  let before :=
    webhook <- getWebhookUrl h this r level ;;
    channel <- getChannel h r level customChannel ;;
    invalid <- Get h fields "errorFormatInvalid" ;;
    let hasInvalidErrorFormat :=
      match invalid with VBool true => true | _ => false end in
    copied <- own_enumerable h fields ;;
    let finalFields :=
      spread (set_if_truthy [] "appName" (appName this)) copied in
    final <-
      (if hasInvalidErrorFormat && truthy error then
         text <- ToString h message ;;
         errorType <-
           try_catch
             (c <- error_constructor_name h error ;;
              Return (or_else (or_else c (VString (typeof h error))) (VString "Unknown")))
             (fun _ => Return (or_else (VString (typeof h error)) (VString "Unknown"))) ;;
         issue <- Get h fields "errorFormatError" ;;
         let fs := obj_set finalFields "errorFormatIssue"
                     (or_else issue (VString "Unknown format issue")) in
         let fs := obj_set fs "originalMessage" message in
         let fs := obj_set fs "errorType" errorType in
         rawValue <- Get h fields "errorRawValue" ;;
         rawValue <- (if truthy rawValue then Get h fields "errorRawValue"
                      else Return rawValue) ;;
         let fs := set_if_truthy fs "errorRawValue" rawValue in
         rawMessage <- Get h fields "errorRawMessage" ;;
         rawMessage <- (if truthy rawMessage then Get h fields "errorRawMessage"
                        else Return rawMessage) ;;
         let fs := set_if_truthy fs "errorRawMessage" rawMessage in
         rawReason <- Get h fields "errorRawReason" ;;
         rawReason <- (if truthy rawReason then Get h fields "errorRawReason"
                       else Return rawReason) ;;
         let fs := set_if_truthy fs "errorRawReason" rawReason in
         rawDetails <- Get h fields "errorRawDetails" ;;
         rawDetails <- (if truthy rawDetails then Get h fields "errorRawDetails"
                        else Return rawDetails) ;;
         let fs := set_if_truthy fs "errorRawDetails" rawDetails in
         Return (VString (text ++ format_notice), fs)
       else Return (message, finalFields)) ;;
    Return (webhook, channel, final) in
  match before with
  | Throw m => Some (Throw m)
  | Return (webhook, channel, (finalMessage, finalFields)) =>
      match sanitizeFields fuel h finalFields with
      | None => None
      | Some (Throw m) => Some (Throw m)
      | Some (Return safeFields) =>
          Some (Return (webhook,
                        {| p_channel := if truthy channel then Some channel else None;
                           p_text := finalMessage;
                           p_fields := safeFields |}))
      end
  end.

(** [send({ level, message, fields = {}, error, customChannel })], lines
    93-161. *)
Definition send (fuel : nat) (h : store) (this : SlackTransport) (r : Routes)
  (level : string) (message fields error customChannel : value) (env : NODE_ENV)
  : option outcome :=
  if negb (shouldHandle this level env) then Some Skipped
  else
    let fields := match fields with VUndefined => VObject [] | _ => fields end in
    match prepare fuel h this r level message fields error customChannel with
    | None => None
    | Some (Throw m) => Some (Failed m)
    | Some (Return (webhook, data)) => Some (Posted webhook data)
    end.

End SlackSend.

(* ===================================================================== *)
(** * src/logger.js: the other methods of the facade *)
(* ===================================================================== *)

Module Facade.

Import Environment Errors Logger.

(** [debugConfig]: [config.debug.enabled] and [config.debug.filter]. *)
Record DebugConfig : Type := mkDebugConfig {
  debug_enabled : value;
  debug_filter : value
}.

(** SameValueZero, the equality of [Array.prototype.includes]; a fresh array
    or object is equal to nothing else. *)
Definition same_value_zero (x y : value) : bool :=
  match x, y with
  | VUndefined, VUndefined => true
  | VNull, VNull => true
  | VBool a, VBool b => Bool.eqb a b
  | VNumber NaN, VNumber NaN => true
  | VNumber (Infinity a), VNumber (Infinity b) => Bool.eqb a b
  | VNumber (Int a), VNumber (Int b) => Z.eqb a b
  | VString a, VString b => String.eqb a b
  | VBigInt a, VBigInt b => Z.eqb a b
  | VRef a, VRef b => Nat.eqb a b
  | _, _ => false
  end.

(** The method call [recv.includes(x)]: on a string [x] is converted to a
    string and searched, on an array it is membership, on the other values
    the method is undefined. An object of the store is data: it is taken to
    have no [includes] and no [match] of its own. *)
Definition call_includes_value (h : store) (what : string) (recv x : value)
  : completion bool :=
  match recv with
  | VString t => s <- ToString h x ;; Return (includes t s)
  | _ =>
      match as_array h recv with
      | Some items => Return (existsb (same_value_zero x) items)
      | None => Throw (what ++ ".includes is not a function")
      end
  end.

Section Debug.

(** The regular expression engine: [RegExp_search pattern text] is
    [Boolean(text.match(new RegExp(pattern, 'i')))], a SyntaxError when
    [pattern] is not a regular expression. *)
Variable RegExp_search : string -> string -> completion bool.

(** [try { return Boolean(filterText.match(new RegExp(f, 'i'))) }
     catch { return filterText.includes(f) }] *)
Definition matches (h : store) (filterText f : value) : completion bool :=
  try_catch
    (match filterText with
     | VString t => pattern <- ToString h f ;; RegExp_search pattern t
     | _ => Throw "filterText.match is not a function"
     end)
    (fun _ => call_includes_value h "filterText" filterText f).

(** [isDebugAllowed(debugEnabled, filter, filterText)], lines 77-108. *)
Definition isDebugAllowed (h : store) (debugEnabled filter filterText : value)
  : completion bool :=
  if negb (truthy debugEnabled) then Return false
  else if negb (truthy filter) || negb (truthy filterText) then Return true
  else if String.eqb (typeof h filter) "string" then matches h filterText filter
  else
    match as_array h filter with
    | Some items => some (matches h filterText) (List.filter truthy items)
    | None => Return true
    end.

(** [logger.isDebugModeOn(filterText)] *)
Definition isDebugModeOn (h : store) (dbg : DebugConfig) (filterText : value)
  : completion bool :=
  isDebugAllowed h (debug_enabled dbg) (debug_filter dbg) filterText.

(** [logger.debug(...args)] *)
Definition debug (h : store) (l : logger) (dbg : DebugConfig) (args : list value)
  (w : world) : completion unit * world :=
  match isDebugAllowed h (debug_enabled dbg) (debug_filter dbg) (nth 0 args VUndefined) with
  | Throw m => (Throw m, w)
  | Return true =>
      (Return tt,
       sendToTransports l LogLevels.DEBUG (nth 0 args VUndefined) (tl args) [] VUndefined w)
  | Return false => (Return tt, w)
  end.

End Debug.

(** [logger.log(...args)] *)
Definition log (l : logger) (args : list value) (w : world) : world :=
  sendToTransports l "log" (nth 0 args VUndefined) (tl args) [] VUndefined w.

(** [logger.info(...args)] *)
Definition info (l : logger) (args : list value) (w : world) : world :=
  sendToTransports l LogLevels.INFO (nth 0 args VUndefined) (tl args) [] VUndefined w.

(** [options?.key] *)
Definition optional_get (h : store) (options : value) (key : string) : completion value :=
  match options with
  | VUndefined | VNull => Return VUndefined
  | _ => Get h options key
  end.

(** [logger.warn(...args)], lines 259-273. *)
Definition warn (h : store) (l : logger) (args : list value) (w : world)
  : completion unit * world :=
  let message := nth 0 args VUndefined in
  let error :=
    if Slack.instanceof_Error h (nth 1 args VUndefined)
    then nth 1 args VUndefined else VUndefined in
  let options := last args VUndefined in
  match
    (customChannel <- optional_get h options "customChannel" ;;
     fs <- optional_get h options "fields" ;;
     copied <- SlackSend.own_enumerable h (or_else fs (VObject [])) ;;
     Return (obj_set copied "customChannel" customChannel))
  with
  | Throw m => (Throw m, w)
  | Return fs =>
      (Return tt, sendToTransports l LogLevels.WARN message (tl args) fs error w)
  end.

(** What the Slack transport is sent for one dispatch:
    [transport.send({ level, message, args, fields: { ...fields,
    ...extractErrorFields(error) }, error })]. No [customChannel] is passed.
    An exception of [extractErrorFields] ends the dispatch before any
    transport is called. *)
Definition slack_delivery (fuel : nat) (h : store) (this : Slack.SlackTransport)
  (r : SlackSend.Routes) (d : dispatch) (env : NODE_ENV)
  : option (completion SlackSend.outcome) :=
  match entry_fields h (d_fields d) (d_error d) with
  | Throw m => Some (Throw m)
  | Return fs =>
      match SlackSend.send fuel h this r (d_level d) (d_message d) (VObject fs)
              (d_error d) VUndefined env with
      | None => None
      | Some o => Some (Return o)
      end
  end.

(** What the console transport is sent for one dispatch. *)
Definition console_delivery (d : dispatch) : Console.console_call :=
  Console.send (d_level d) (d_message d) (d_args d).

(** [transports.find((t) => t.name === 'slack')] *)
Definition find_slack (l : logger) : option transport :=
  find (fun t => String.eqb (transport_name t) "slack") (transports l).

(** What [sendToSlack] does: no transport named slack, the [send] of a
    transport of the caller that took the name, or the [send] of the Slack
    transport. *)
Inductive slack_call : Type :=
| NoSlackTransport
| CustomSend (name : string)
| SlackSendOutcome (o : SlackSend.outcome).

(** [logger.sendToSlack({ message, fields = {}, level = LogLevels.INFO,
    customChannel })], lines 391-396; [r] holds the routing tables of the
    logger's Slack transport. An absent [level] is [None]. *)
Definition sendToSlack (fuel : nat) (h : store) (l : logger) (r : SlackSend.Routes)
  (message fields : value) (level : option string) (customChannel : value)
  (env : NODE_ENV) : option slack_call :=
  let fields := match fields with VUndefined => VObject [] | _ => fields end in
  let level := match level with Some s => s | None => LogLevels.INFO end in
  match find_slack l with
  | None => Some NoSlackTransport
  | Some (SlackTransport this) =>
      match SlackSend.send fuel h this r level message fields VUndefined
              customChannel env with
      | None => None
      | Some o => Some (SlackSendOutcome o)
      end
  | Some t => Some (CustomSend (transport_name t))
  end.

(** [logger.getTransports()] *)
Definition getTransports (l : logger) : list transport := transports l.

(** [logger.addTransport(transport)] *)
Definition addTransport (l : logger) (t : transport) : logger :=
  {| transports := (transports l ++ [t])%list;
     errorsToTreatAsWarnings := errorsToTreatAsWarnings l |}.

End Facade.

(* ===================================================================== *)
(** * Vocabulary of the properties *)
(* ===================================================================== *)

Module Vocabulary.

(** The non-object inputs of the normalizer: a string, a number, a boolean. *)
Definition string_number_boolean (v : value) : bool :=
  match v with
  | VString _ | VNumber _ | VBool _ => true
  | _ => false
  end.

(** The text of a [message] or [reason] that is a string, or is absent or
    falsy (then the empty string). *)
Definition text (v : value) : option string :=
  match v with
  | VString s => Some s
  | _ => if truthy v then None else Some ""
  end.

(** A call of [error] that breaks the arity contract. *)
Definition invalid_arity (args : list value) : Prop :=
  length args = 0 \/ 2 < length args.

(** A value is JSON-safe when [JSON.stringify] accepts it: no BigInt, no
    getter that throws and no cycle is met while serializing it. *)
Definition JSON_safe (h : store) (v : value) : Prop :=
  Slack.JSON_stringify_throws h v = false.

(** JSON data: null, booleans, numbers, strings, and the arrays and plain
    objects made of JSON data, where at most [n] objects of the store are
    entered one inside the other. Data that has such an [n] has no cycle. *)
Fixpoint json_data (n : nat) (h : store) (v : value) {struct n} : bool :=
  (fix walk (v : value) : bool :=
     match v with
     | VNull | VBool _ | VNumber _ | VString _ => true
     | VArray items => forallb walk items
     | VObject props => forallb (fun kv => walk (snd kv)) props
     | VRef a =>
         match n with
         | O => false
         | S n' =>
             match lookup h a with
             | None => false
             | Some o =>
                 match obj_class o with
                 | ArrayClass => forallb (json_data n' h) (obj_items o)
                 | PlainClass =>
                     forallb (fun kv =>
                                match snd kv with
                                | Data x => json_data n' h x
                                | Accessor _ => false
                                end) (obj_slots o)
                 | _ => false
                 end
             end
         end
     | _ => false
     end) v.

(** The keys of a JavaScript object are distinct. *)
Definition distinct_keys (fs : Errors.fields) : Prop := NoDup (map fst fs).

Definition returns {A} (c : completion A) : bool :=
  match c with
  | Return _ => true
  | Throw _ => false
  end.

(** An object none of whose getters throws and whose conversion to a string
    returns. *)
Definition quiet_object (o : object) : bool :=
  forallb (fun kv => match snd kv with
                     | Data _ => true
                     | Accessor g => returns g
                     end) (obj_slots o ++ obj_hidden o)
  && returns (obj_string o).

(** A store of such objects. They reference one another as they like: a
    quiet store can hold a self-referential object, a cyclic array, a BigInt. *)
Definition quiet (h : store) : bool := forallb quiet_object h.

(** [within_depth h n v]: arrays are nested in [v] at most [n] levels one
    inside the other, counting [v] itself, and what stands inside the [n]th
    level is the mark of the depth limit and nothing else. Only arrays are
    entered, as [sanitizeValue] does. *)
Fixpoint within_depth (h : store) (n : nat) (v : value) : bool :=
  match n with
  | O => match v with
         | VString s => String.eqb s "[Max depth reached]"
         | _ => false
         end
  | S n' =>
      match as_array h v with
      | Some items => forallb (within_depth h n') items
      | None => true
      end
  end.

End Vocabulary.

(* ===================================================================== *)
(** * Sample inputs *)
(* ===================================================================== *)

Module Samples.

Import Environment Errors Logger.

(** [{ get message() { throw new Error('boom') },
       toString() { throw new Error('bang') } }] *)
Definition hostile : object :=
  {| obj_class := PlainClass;
     obj_slots := [("message", Accessor (Throw "boom"))];
     obj_hidden := [];
     obj_items := [];
     obj_string := Throw "bang";
     obj_constructor := Some "Object" |}.

(** [const e = Object.create(null); e.message = e]: data only, and without
    [toString], so that converting it to a string is a TypeError. *)
Definition bare : object :=
  {| obj_class := PlainClass;
     obj_slots := [("message", Data (VRef 0))];
     obj_hidden := [];
     obj_items := [];
     obj_string := Throw "Cannot convert object to primitive value";
     obj_constructor := None |}.

(** [{ message: 404 }] *)
Definition status_error : value := VObject [("message", VNumber (Int 404))].

(** [{ message: 'Timeout', reason: 404 }] *)
Definition timeout_error : value :=
  VObject [("message", VString "Timeout"); ("reason", VNumber (Int 404))].

(** [new Error('User not found')] *)
Definition user_not_found : object :=
  {| obj_class := ErrorClass;
     obj_slots := [];
     obj_hidden := [("message", Data (VString "User not found"));
                    ("stack", Data (VString "Error: User not found"))];
     obj_items := [];
     obj_string := Return "Error: User not found";
     obj_constructor := Some "Error" |}.

Definition slack_config : Slack.SlackConfig :=
  {| Slack.cfg_webhookUrl := VString "https://hooks.slack.com/services/T/B/X";
     Slack.cfg_skipInDevelopment := VUndefined;
     Slack.cfg_enabled := VUndefined;
     Slack.cfg_appName := VUndefined |}.

(** [new SlackTransport({ webhookUrl: 'https://hooks...' })]: enabled, and
    skipping in development, by default. *)
Definition default_transport : Slack.SlackTransport :=
  Slack.new_SlackTransport slack_config.

(** [createLogger({ appName: 'app', environment, slack: { webhookUrl } })] *)
Definition config (environment : option string) : Config :=
  {| config_appName := VString "app";
     config_environment := environment;
     config_slack := slack_config;
     config_errorsToTreatAsWarnings := None;
     config_transports := [] |}.

Definition fresh_world (env : NODE_ENV) : world :=
  {| process_env_NODE_ENV := env; traces := []; dispatched := [] |}.

(** [const a = {}; a.self = a] *)
Definition self_referential : object :=
  {| obj_class := PlainClass;
     obj_slots := [("self", Data (VRef 0))];
     obj_hidden := [];
     obj_items := [];
     obj_string := Return "[object Object]";
     obj_constructor := Some "Object" |}.

(** [const b = [1]; b.push(b)] *)
Definition cyclic_array : object :=
  {| obj_class := ArrayClass;
     obj_slots := [];
     obj_hidden := [];
     obj_items := [VNumber (Int 1); VRef 1];
     obj_string := Return "1,";
     obj_constructor := Some "Array" |}.

(** [const user = { id: 7, tags: ['a', 'b'] }] *)
Definition user : object :=
  {| obj_class := PlainClass;
     obj_slots := [("id", Data (VNumber (Int 7)));
                   ("tags", Data (VArray [VString "a"; VString "b"]))];
     obj_hidden := [];
     obj_items := [];
     obj_string := Return "[object Object]";
     obj_constructor := Some "Object" |}.

(** [const users = [user, user]] *)
Definition users : object :=
  {| obj_class := ArrayClass;
     obj_slots := [];
     obj_hidden := [];
     obj_items := [VRef 2; VRef 2];
     obj_string := Return "[object Object],[object Object]";
     obj_constructor := Some "Array" |}.

Definition sample_store : store := [self_referential; cyclic_array; user; users].

(** [{ a, b, deep: [[[[[[[1]]]]]]], note: 'x' }] *)
Definition mixed_fields : fields :=
  [("a", VRef 0); ("b", VRef 1);
   ("deep", VArray [VArray [VArray [VArray [VArray [VArray [VArray
              [VNumber (Int 1)]]]]]]]);
   ("note", VString "x")].


(** [{ a, b }] *)
Definition cyclic_fields : fields := [("a", VRef 0); ("b", VRef 1)].

(** [{ user, users, deep: [[[[[[[1]]]]]]], note: 'x', nothing: null, flag: true }] *)
Definition json_fields : fields :=
  [("user", VRef 2); ("users", VRef 3);
   ("deep", VArray [VArray [VArray [VArray [VArray [VArray [VArray
              [VNumber (Int 1)]]]]]]]);
   ("note", VString "x"); ("nothing", VNull); ("flag", VBool true)].

End Samples.

(* ===================================================================== *)
(** * More vocabulary and samples *)
(* ===================================================================== *)

Module Reports.

Import Errors.




(** The output field for a well-typed input field. *)
Definition copied (key : string) (v : value) : fields :=
  match v with
  | VString s => [(key, VString s)]
  | VNumber n => [(key, VString (NumberToString n))]
  | _ => []
  end.

(** A field that is present and not of an accepted type. *)
Definition mistyped (h : store) (v : value) : bool :=
  negb (is_undefined v) && negb (string_or_number h v).

Definition mistyped_stack (h : store) (v : value) : bool :=
  negb (is_undefined v) && negb (String.eqb (typeof h v) "string").

(** The clauses of the format description, in the order of detection. *)
Definition format_clauses (h : store) (m r d st : value) : list string :=
  ((if mistyped h m then ["error.message must be a string or number"] else [])
   ++ (if mistyped h r then ["error.reason must be a string or number"] else [])
   ++ (if mistyped h d then ["error.details must be a string or number"] else [])
   ++ (if mistyped_stack h st then ["error.stack must be a string"] else []))%list.

(** The levels the Slack transport takes. *)
Definition slack_level (level : string) : Prop :=
  level = "warn" \/ level = "error" \/ level = "error-background" \/ level = "error-bg".

(** The values [sanitizeValue] returns as they are. *)
Definition primitive (v : value) : bool :=
  match v with
  | VUndefined | VNull | VBool _ | VNumber _ | VString _ => true
  | _ => false
  end.

(** The primitives that have neither a [match] nor an [includes] method: the
    numbers, the booleans, the BigInts and the symbols. *)
Definition without_methods (v : value) : bool :=
  match v with
  | VBool _ | VNumber _ | VBigInt _ | VSymbol _ => true
  | _ => false
  end.

(** Every [Error] object of the store can be serialized. *)
Definition errors_serializable (h : store) : Prop :=
  forall a, Slack.instanceof_Error h (VRef a) = true ->
            Slack.JSON_stringify_throws h (VRef a) = false.

(** [c.startsWith('#') ? c : `#${c}`] on a string. *)
Definition hashed (c : string) : string :=
  if String.prefix "#" c then c else "#" ++ c.

(** What [console] is called with for the arguments of [log], [info] and
    [debug]: with no argument at all the message is [undefined]. *)
Definition printed (args : list value) : list value :=
  match args with
  | [] => [VUndefined]
  | _ => args
  end.

End Reports.

Module MoreSamples.

Import Errors Logger Samples.


(** [{ message: 'TypeError: Failed to fetch' }] *)
Definition failed_fetch : value :=
  VObject [("message", VString "TypeError: Failed to fetch")].

(** [{ message: {}, reason: 'r', details: [], stack: 123 }] *)
Definition malformed_error : value :=
  VObject [("message", VObject []); ("reason", VString "r");
           ("details", VArray []); ("stack", VNumber (Int 123))].

(** A regular expression engine for the samples: every pattern is valid and
    is searched as a plain text. *)
Definition plain_search (pattern text : string) : completion bool :=
  Return (includes text pattern).

(** An engine that rejects every pattern. *)
Definition no_search (pattern text : string) : completion bool :=
  Throw "Invalid regular expression".

Definition default_routes : SlackSend.Routes :=
  SlackSend.new_Routes VUndefined VUndefined VUndefined.

(** [channels: { warn: 'app-warnings', 'error-bg': '#app-background' }] *)
Definition channel_routes : SlackSend.Routes :=
  SlackSend.new_Routes VUndefined
    (VObject [("warn", VString "app-warnings"); ("error-bg", VString "#app-background")])
    VUndefined.

Definition production_logger : logger :=
  fst (createLogger (config (Some "production")) (fresh_world None)).

(** [{ get message() { throw new Error('boom') } }], with the [toString] of
    [Object.prototype]. *)
Definition guarded : object :=
  {| obj_class := PlainClass;
     obj_slots := [("message", Accessor (Throw "boom"))];
     obj_hidden := [];
     obj_items := [];
     obj_string := Return "[object Object]";
     obj_constructor := Some "Object" |}.

(** [createLogger({ appName: 'app' })]: no Slack transport. *)
Definition console_config : Config :=
  {| config_appName := VString "app";
     config_environment := None;
     config_slack := {| Slack.cfg_webhookUrl := VUndefined;
                        Slack.cfg_skipInDevelopment := VUndefined;
                        Slack.cfg_enabled := VUndefined;
                        Slack.cfg_appName := VUndefined |};
     config_errorsToTreatAsWarnings := None;
     config_transports := [] |}.

(** The Slack transport of [production_logger]. *)
Definition production_slack : Slack.SlackTransport :=
  Slack.new_SlackTransport
    {| Slack.cfg_webhookUrl := Slack.cfg_webhookUrl slack_config;
       Slack.cfg_skipInDevelopment := VUndefined;
       Slack.cfg_enabled := VUndefined;
       Slack.cfg_appName := VString "app" |}.

Definition production_world : world :=
  snd (createLogger (config (Some "production")) (fresh_world None)).

(** [webhookUrls: { error: '.../errors' }],
    [channels: { 'error-background': '#background' }] *)
Definition override_routes : SlackSend.Routes :=
  SlackSend.new_Routes
    (VObject [("error", VString "https://hooks.slack.com/services/errors")])
    (VObject [("error-background", VString "#background")])
    VUndefined.

End MoreSamples.

(* ===================================================================== *)
(** * Properties *)
(* ===================================================================== *)

(** ** Environment *)

Module EnvironmentFacts.

Import Environment.

Lemma append_dash_nonempty (s : string) : s ++ "-" <> "".
Proof. destruct s; simpl; discriminate. Qed.

Lemma getEnvironment_set (s : string) : s <> "" -> getEnvironment (Some s) = s.
Proof.
  intros Hs. unfold getEnvironment.
  destruct (String.eqb_spec s ""); [contradiction | reflexivity].
Qed.

Lemma isDevelopment_iff (env : NODE_ENV) :
  isDevelopment env = true <->
  env = None \/ env = Some "" \/ env = Some "development".
Proof.
  unfold isDevelopment, getEnvironment, ENVIRONMENT_DEVELOPMENT.
  destruct env as [s|].
  - destruct (String.eqb_spec s "") as [->|Hs].
    + simpl. split; auto.
    + rewrite String.eqb_eq. split.
      * intros ->. auto.
      * intros [H|[H|H]]; try discriminate; injection H as H; congruence.
  - simpl. split; auto.
Qed.

(** C4, the classifier does not return one of three names for every value of
    the external string: [NODE_ENV = "test"] is neither "staging" nor
    "production", and it is reported as "test", with prefix "test-". *)
Lemma getEnvironment_test_counterexample :
  Some "test" <> Some "staging" /\ Some "test" <> Some "production" /\
  getEnvironment (Some "test") = "test" /\
  getEnvironment (Some "test") <> "development" /\
  getEnvironmentPrefix (Some "test") = "test-".
Proof. repeat split; discriminate. Qed.

(** C4 (amended): the classifier reports the external string itself when it
    is set and not empty, and "development" when it is absent or empty. So it
    reports development exactly for an absent, an empty and a "development"
    setting, and then the prefix is "development-"; the prefix is empty
    exactly when production is reported, and otherwise it is the reported name
    followed by "-". *)
Theorem getEnvironment_reports (env : NODE_ENV) :
  getEnvironment None = "development" /\
  getEnvironment (Some "") = "development" /\
  (forall s, s <> "" -> getEnvironment (Some s) = s) /\
  (isDevelopment env = true <->
   env = None \/ env = Some "" \/ env = Some "development") /\
  (isDevelopment env = true -> getEnvironmentPrefix env = "development-") /\
  (getEnvironmentPrefix env = "" <-> getEnvironment env = "production") /\
  (getEnvironment env <> "production" ->
   getEnvironmentPrefix env = getEnvironment env ++ "-").
Proof.
  split; [reflexivity|]. split; [reflexivity|].
  split; [exact getEnvironment_set|].
  split; [apply isDevelopment_iff|].
  unfold getEnvironmentPrefix, isDevelopment,
    ENVIRONMENT_PRODUCTION, ENVIRONMENT_DEVELOPMENT.
  repeat split.
  - rewrite String.eqb_eq. intros ->. reflexivity.
  - destruct (String.eqb_spec (getEnvironment env) "production") as [E|E]; [auto|].
    intros H. exfalso. exact (append_dash_nonempty _ H).
  - intros ->. reflexivity.
  - intros H. destruct (String.eqb_spec (getEnvironment env) "production");
      [contradiction | reflexivity].
Qed.

Lemma getEnvironment_reports_witness :
  getEnvironment (Some "staging") = "staging" /\
  getEnvironmentPrefix None = "development-" /\
  getEnvironmentPrefix (Some "staging") = "staging" ++ "-".
Proof.
  destruct (getEnvironment_reports None) as (_ & _ & _ & Hdev & Hprefix & _).
  destruct (getEnvironment_reports (Some "staging")) as (_ & _ & Hset & _ & _ & _ & Hother).
  split; [apply Hset; discriminate|].
  split; [apply Hprefix, Hdev; left; reflexivity|].
  apply Hother. discriminate.
Defined.

End EnvironmentFacts.

(** ** The Slack transport: shouldHandle *)

Module ShouldHandleFacts.

Import Environment Slack Samples.

(** C3, the transport does not skip every environment below production: with
    the skip flag set and [NODE_ENV = "staging"] it handles an error. *)
Lemma shouldHandle_staging_counterexample :
  truthy (skipInDevelopment default_transport) = true /\
  isProduction (Some "staging") = false /\
  isStaging (Some "staging") = true /\
  shouldHandle default_transport LogLevels.ERROR (Some "staging") = true.
Proof. repeat split. Qed.

Lemma handled_levels (level : string) :
  existsb (String.eqb level)
    [LogLevels.WARN; LogLevels.ERROR; LogLevels.ERROR_BACKGROUND;
     SlackLevels.WARN; SlackLevels.ERROR; SlackLevels.ERROR_BACKGROUND] = true <->
  level = "warn" \/ level = "error" \/ level = "error-background" \/ level = "error-bg".
Proof.
  simpl. rewrite !orb_true_iff, !String.eqb_eq.
  unfold LogLevels.WARN, LogLevels.ERROR, LogLevels.ERROR_BACKGROUND,
    SlackLevels.WARN, SlackLevels.ERROR, SlackLevels.ERROR_BACKGROUND.
  intuition discriminate.
Qed.

(** C3 (amended): [shouldHandle] is false when the transport is disabled or
    has no default webhook; it is false whenever the skip flag is set and the
    environment is development (an absent, empty or "development" setting;
    staging is not skipped); when the transport is enabled, has a default
    webhook and that skip condition does not apply, it is true exactly for
    the severities warn, error and error-background (and for Slack's own
    spelling "error-bg" of the last). *)
Theorem shouldHandle_spec (this : SlackTransport) (level : string) (env : NODE_ENV) :
  (truthy (enabled this) = false \/ truthy (webhookUrl this) = false ->
   shouldHandle this level env = false) /\
  (truthy (skipInDevelopment this) = true -> isDevelopment env = true ->
   shouldHandle this level env = false) /\
  (truthy (enabled this) = true -> truthy (webhookUrl this) = true ->
   truthy (skipInDevelopment this) && isDevelopment env = false ->
   (shouldHandle this level env = true <->
    level = "warn" \/ level = "error" \/ level = "error-background" \/
    level = "error-bg")).
Proof.
  unfold shouldHandle. split; [|split].
  - intros [-> | ->]; simpl; [reflexivity | rewrite orb_true_r; reflexivity].
  - intros -> ->. simpl. destruct (_ || _); reflexivity.
  - intros -> -> ->. simpl. apply handled_levels.
Qed.

Lemma shouldHandle_spec_witness :
  shouldHandle default_transport "error-background" (Some "production") = true /\
  shouldHandle default_transport "info" (Some "production") = false /\
  shouldHandle default_transport "error" None = false.
Proof.
  destruct (shouldHandle_spec default_transport "error-background" (Some "production"))
    as (_ & _ & Hprod).
  destruct (shouldHandle_spec default_transport "info" (Some "production"))
    as (_ & _ & Hinfo).
  destruct (shouldHandle_spec default_transport "error" None) as (_ & Hdev & _).
  split; [|split].
  - apply Hprod; try reflexivity. right; right; left; reflexivity.
  - destruct (shouldHandle default_transport "info" (Some "production")) eqn:E;
      [|reflexivity].
    exfalso. destruct (proj1 (Hinfo eq_refl eq_refl eq_refl) eq_refl)
      as [H|[H|[H|H]]]; discriminate H.
  - apply Hdev; reflexivity.
Defined.

End ShouldHandleFacts.

(** ** The error normalizer and the reclassifier *)

Module ErrorsFacts.

Import Errors Samples Vocabulary.

Lemma prefix_iff (p s : string) :
  String.prefix p s = true <-> exists b, s = p ++ b.
Proof.
  revert s. induction p as [|c p IH]; intros s; destruct s as [|d s]; simpl.
  - split; [intros _; exists ""; reflexivity | reflexivity].
  - split; [intros _; exists (String d s); reflexivity | reflexivity].
  - split; [discriminate | intros [b Hb]; discriminate].
  - destruct (Ascii.ascii_dec c d) as [->|Hcd].
    + rewrite IH. split; intros [b Hb]; exists b; congruence.
    + split; [discriminate | intros [b Hb]; congruence].
Qed.

(** [includes] is the substring test. *)
Lemma includes_iff (s p : string) :
  includes s p = true <-> exists a b, s = a ++ p ++ b.
Proof.
  induction s as [|c s IH]; cbn [includes]; rewrite orb_true_iff, prefix_iff.
  - split.
    + intros [[b Hb] | H]; [exists "", b; exact Hb | discriminate].
    + intros [a [b H]]. left. destruct a; [exists b; exact H | discriminate].
  - rewrite IH. split.
    + intros [[b Hb] | [a [b H]]].
      * exists "", b. exact Hb.
      * exists (String c a), b. simpl. congruence.
    + intros [a [b H]]. destruct a as [|c' a]; simpl in H.
      * left. exists b. exact H.
      * right. exists a, b. congruence.
Qed.

Lemma some_pure {A} (f : A -> completion bool) (g : A -> bool) (l : list A) :
  (forall x, f x = Return (g x)) -> some f l = Return (existsb g l).
Proof.
  intros Hf. induction l as [|x l IH]; simpl; [reflexivity|].
  rewrite Hf. simpl. destruct (g x); [reflexivity | exact IH].
Qed.

Lemma or_else_text (v : value) (s : string) :
  text v = Some s -> or_else v (VString "") = VString s.
Proof.
  unfold text, or_else. destruct v; simpl; try congruence;
    try (destruct (truthy _) eqn:E; simpl in E; try rewrite E; congruence).
  - destruct b; congruence.
  - destruct n as [| |z]; simpl; try congruence. destruct (Z.eqb z 0); simpl; congruence.
  - intros [= ->]. destruct (String.eqb_spec s ""); simpl; congruence.
  - destruct (Z.eqb z 0); simpl; congruence.
Qed.

(** On an error whose [message] and [reason] are strings, or absent, the
    reclassifier returns, and it is the substring test that decides. *)
Lemma shouldTreatAsWarning_strings (h : store) (error : value) (patterns : list string)
  (m r : value) (ms rs : string) :
  Get h error "message" = Return m -> text m = Some ms ->
  Get h error "reason" = Return r -> text r = Some rs ->
  shouldTreatAsWarning h error patterns =
  Return (truthy error && negb (Nat.eqb (length patterns) 0) &&
          existsb (fun p => includes ms p || includes rs p) patterns).
Proof.
  intros Hm Tm Hr Tr. unfold shouldTreatAsWarning.
  destruct (truthy error); simpl; [|reflexivity].
  destruct (Nat.eqb (length patterns) 0); simpl; [reflexivity|].
  rewrite Hm, Hr. simpl.
  rewrite (or_else_text _ _ Tm), (or_else_text _ _ Tr).
  apply some_pure. intros p. simpl. destruct (includes ms p); reflexivity.
Qed.

Lemma shouldTreatAsWarning_absent (h : store) (error : value) (patterns : list string) :
  truthy error = false \/ patterns = [] ->
  shouldTreatAsWarning h error patterns = Return false.
Proof.
  unfold shouldTreatAsWarning. intros [-> | ->]; simpl; [reflexivity|].
  rewrite orb_true_r. reflexivity.
Qed.

(** The normalizer returns whenever the value itself converts to a string;
    what the [try] block throws is an [Error], the exception of the model,
    whose [message] is a string. *)
Lemma extractErrorFields_returns (h : store) (error : value) (s : string) :
  String_ h error = Return s ->
  exists fs, extractErrorFields h error = Return fs.
Proof.
  intros Hs. unfold extractErrorFields.
  destruct (negb (truthy error)); [eexists; reflexivity|].
  destruct (extract h error) as [fs|m]; simpl.
  - eexists; reflexivity.
  - rewrite Hs. simpl. eexists; reflexivity.
Qed.

(** C1: the normalizer does raise. On an object whose [message] getter throws
    and whose conversion to a string throws, the [catch] block of
    [extractErrorFields] itself calls [String(error)], and the exception of
    that conversion leaves the function. *)
Theorem extractErrorFields_raises :
  Get [hostile] (VRef 0) "message" = Throw "boom" /\
  String_ [hostile] (VRef 0) = Throw "bang" /\
  extractErrorFields [hostile] (VRef 0) = Throw "bang".
Proof. repeat split. Qed.

(** The same on data alone: an object without prototype whose [message] is
    an object without prototype. *)
Example extractErrorFields_raises_on_data :
  extractErrorFields [bare] (VRef 0) = Throw "Cannot convert object to primitive value".
Proof. reflexivity. Qed.

(** C2, a falsy primitive is not flagged: for the number 0 the normalizer
    returns the empty mapping. *)
Lemma extractErrorFields_zero_counterexample :
  string_number_boolean (VNumber (Int 0)) = true /\
  extractErrorFields [] (VNumber (Int 0)) = Return [] /\
  assoc "errorFormatInvalid" ([] : fields) <> Some (VBool true).
Proof. repeat split. discriminate. Qed.

(** C2 (amended): for every truthy string, number or boolean [e] (a string
    that is not empty, a number other than 0 and NaN, [true]) the normalizer
    returns the mapping with [errorFormatInvalid] true, [errorFormatError]
    naming the type and [errorRawValue] equal to [String(e)]; for a falsy one
    it returns the empty mapping. *)
Theorem extractErrorFields_primitive (h : store) (e : value) :
  string_number_boolean e = true ->
  exists s,
    String_ h e = Return s /\
    extractErrorFields h e =
    Return (if truthy e
            then [("errorFormatInvalid", VBool true);
                  ("errorFormatError",
                   VString ("Expected error to be an object, but received " ++ typeof h e));
                  ("errorRawValue", VString s)]
            else []).
Proof.
  intros He. unfold extractErrorFields, extract.
  destruct e as [| |b|n|s| | | | |]; try discriminate He; simpl.
  - destruct b; simpl; eexists; split; reflexivity.
  - destruct n as [| |z]; simpl; try (eexists; split; reflexivity).
    destruct (Z.eqb z 0); simpl; eexists; split; reflexivity.
  - destruct (String.eqb s ""); simpl; eexists; split; reflexivity.
Qed.

Lemma extractErrorFields_primitive_witness :
  exists s,
    String_ [] (VString "boom") = Return s /\
    extractErrorFields [] (VString "boom") =
    Return (if truthy (VString "boom")
            then [("errorFormatInvalid", VBool true);
                  ("errorFormatError",
                   VString ("Expected error to be an object, but received "
                            ++ typeof [] (VString "boom")));
                  ("errorRawValue", VString s)]
            else []).
Proof. apply (extractErrorFields_primitive [] (VString "boom")). reflexivity. Defined.

(** C5: the reclassifier does raise. [{ message: 404 }] has a message of a
    documented type (string or number); the number is not converted to a
    string, and calling [includes] on it is a TypeError. *)
Theorem shouldTreatAsWarning_raises :
  extractErrorFields [] status_error = Return [("errorMessage", VString "404")] /\
  shouldTreatAsWarning [] status_error DEFAULT_WARNING_PATTERNS =
  Throw "message.includes is not a function".
Proof. repeat split. Qed.

End ErrorsFacts.

(** ** The facade: error and errorBackground *)

Module LoggerFacts.

Import Environment Errors Logger Samples Vocabulary.

Lemma validateErrorArgs_invalid (args : list value) (w : world) :
  invalid_arity args ->
  fst (validateErrorArgs args w) = false /\
  process_env_NODE_ENV (snd (validateErrorArgs args w)) = process_env_NODE_ENV w /\
  dispatched (snd (validateErrorArgs args w)) = dispatched w.
Proof.
  intros H. unfold validateErrorArgs.
  assert (E : Nat.eqb (length args) 0 || Nat.ltb 2 (length args) = true).
  { apply orb_true_iff. destruct H as [H|H].
    - left. apply Nat.eqb_eq. exact H.
    - right. apply Nat.ltb_lt. exact H. }
  rewrite E. repeat split.
Qed.

(** In development a call of [error] with a wrong number of arguments is
    dropped. *)
Lemma error_dropped_in_development (h : store) (l : logger) (args : list value) (w : world) :
  invalid_arity args -> isDevelopment (process_env_NODE_ENV w) = true ->
  fst (error h l args w) = Return tt /\
  dispatched (snd (error h l args w)) = dispatched w.
Proof.
  intros Ha Hd. unfold error.
  destruct (validateErrorArgs_invalid args w Ha) as (Hv & He & Hdis).
  destruct (validateErrorArgs args w) as [valid w1]. simpl in *. subst valid.
  rewrite He, Hd. simpl. split; [reflexivity | exact Hdis].
Qed.

(** Outside development it goes on, and one entry is dispatched when the
    reclassification returns. *)
Lemma error_dispatched_outside_development
  (h : store) (l : logger) (args : list value) (w : world) (b : bool) :
  invalid_arity args -> isDevelopment (process_env_NODE_ENV w) = false ->
  treated_as_warning h l (nth 1 args VUndefined) = Return b ->
  (b = true -> exists s, ToString h (nth 0 args VUndefined) = Return s) ->
  exists d,
    fst (error h l args w) = Return tt /\
    dispatched (snd (error h l args w)) = (dispatched w ++ [d])%list /\
    d_level d = (if b then LogLevels.WARN else LogLevels.ERROR).
Proof.
  intros Ha Hd Ht Hs. unfold error.
  destruct (validateErrorArgs_invalid args w Ha) as (Hv & He & Hdis).
  destruct (validateErrorArgs args w) as [valid w1]. simpl in *. subst valid.
  rewrite He, Hd, Ht. simpl. destruct b.
  - destruct (Hs eq_refl) as [s ->]. eexists. simpl. rewrite Hdis.
    repeat split.
  - eexists. simpl. rewrite Hdis. repeat split.
Qed.

(** C6: a call with three arguments outside development can dispatch nothing.
    With [NODE_ENV = "production"], [error('a', { message: 404 }, 'c')]
    reports the arity and goes on, and the reclassification raises a
    TypeError before anything is dispatched. *)
Theorem error_three_arguments_raises :
  let l := fst (createLogger (config (Some "production")) (fresh_world None)) in
  let w := snd (createLogger (config (Some "production")) (fresh_world None)) in
  let args := [VString "a"; status_error; VString "c"] in
  isDevelopment (process_env_NODE_ENV w) = false /\
  length args = 3 /\
  fst (error [] l args w) = Throw "message.includes is not a function" /\
  dispatched (snd (error [] l args w)) = [] /\
  fst (errorBackground [] l args w) = Throw "message.includes is not a function" /\
  dispatched (snd (errorBackground [] l args w)) = [].
Proof. repeat split. Qed.

(** With the default patterns, an error whose message is a string with one
    of them inside, and whose reason is a string or absent, is dispatched once,
    as a warning, with the suffix. *)
Lemma error_treated_as_warn (h : store) (l : logger) (w : world)
  (message : string) (e r : value) (em rs p : string) :
  errorsToTreatAsWarnings l = DEFAULT_WARNING_PATTERNS ->
  Get h e "message" = Return (VString em) ->
  In p DEFAULT_WARNING_PATTERNS -> includes em p = true ->
  Get h e "reason" = Return r -> text r = Some rs ->
  error h l [VString message; e] w =
  (Return tt,
   sendToTransports l LogLevels.WARN
     (VString (message ++ " [error treated as warn]")) [e] [] e w).
Proof.
  intros Hl Hm Hp Hi Hr Tr. unfold error. simpl.
  assert (Te : truthy e = true).
  { destruct e; simpl in Hm; try discriminate; reflexivity. }
  unfold treated_as_warning. rewrite Te, Hl.
  rewrite (ErrorsFacts.shouldTreatAsWarning_strings h e _ _ r em rs Hm eq_refl Hr Tr).
  assert (E : existsb (fun p => includes em p || includes rs p)
                DEFAULT_WARNING_PATTERNS = true).
  { apply existsb_exists. exists p. split; [exact Hp|]. rewrite Hi. reflexivity. }
  rewrite Te, E. reflexivity.
Qed.

(** [error('msg', new Error('User not found'))] *)
Example error_user_not_found :
  let l := fst (createLogger (config (Some "production")) (fresh_world None)) in
  let w := snd (createLogger (config (Some "production")) (fresh_world None)) in
  dispatched (snd (error [user_not_found] l [VString "msg"; VRef 0] w)) =
  [{| d_level := "warn";
      d_message := VString "msg [error treated as warn]";
      d_args := [VRef 0];
      d_fields := [];
      d_error := VRef 0;
      d_targets := ["console"; "slack"] |}].
Proof.
  intros l w.
  rewrite (error_treated_as_warn [user_not_found] l w "msg" (VRef 0)
             VUndefined "User not found" "" "User not found");
    try reflexivity.
  simpl. auto.
Qed.

(** C7: an error whose message holds a default pattern can fail to be
    dispatched. For [{ message: 'Timeout', reason: 404 }] the first pattern is
    not in the message, so [includes] is called on the reason, a number: a
    TypeError, and nothing is dispatched. *)
Theorem error_treated_as_warn_raises :
  let l := fst (createLogger (config (Some "production")) (fresh_world None)) in
  let w := snd (createLogger (config (Some "production")) (fresh_world None)) in
  errorsToTreatAsWarnings l = DEFAULT_WARNING_PATTERNS /\
  Get [] timeout_error "message" = Return (VString "Timeout") /\
  In "Timeout" DEFAULT_WARNING_PATTERNS /\
  includes "Timeout" "Timeout" = true /\
  fst (error [] l [VString "msg"; timeout_error] w) =
    Throw "reason.includes is not a function" /\
  dispatched (snd (error [] l [VString "msg"; timeout_error] w)) = [].
Proof. repeat split. simpl. tauto. Qed.

(** C10: when the configuration supplies an environment (a string that is
    not empty), [createLogger] overwrites the process-wide setting and touches
    nothing else of the world; from then on every read sees the new value: the
    classifier, the skip check of any Slack transport, and the arity check of
    any logger, created before or after. *)
Theorem createLogger_overwrites_environment (cfg : Config) (w : world) (e : string) :
  config_environment cfg = Some e -> e <> "" ->
  let w' := snd (createLogger cfg w) in
  process_env_NODE_ENV w' = Some e /\
  traces w' = traces w /\ dispatched w' = dispatched w /\
  getEnvironment (process_env_NODE_ENV w') = e /\
  isDevelopment (process_env_NODE_ENV w') = String.eqb e "development" /\
  (forall (t : Slack.SlackTransport) (level : string),
     Slack.shouldHandle t level (process_env_NODE_ENV w') =
     Slack.shouldHandle t level (Some e)) /\
  (forall (h : store) (l0 : logger),
     dispatched (snd (error h l0 [] w')) = dispatched w <-> e = "development").
Proof.
  intros Hc He. unfold createLogger. rewrite Hc.
  assert (T : truthy (VString e) = true).
  { simpl. destruct (String.eqb_spec e ""); [contradiction | reflexivity]. }
  rewrite T. cbn [snd process_env_NODE_ENV traces dispatched].
  assert (G : getEnvironment (Some e) = e)
    by (apply EnvironmentFacts.getEnvironment_set; exact He).
  assert (D : isDevelopment (Some e) = String.eqb e "development")
    by (unfold isDevelopment; rewrite G; reflexivity).
  do 3 (split; [reflexivity|]). split; [exact G|]. split; [exact D|].
  split; [reflexivity|].
  intros h l0. unfold error, validateErrorArgs.
  cbn [length Nat.eqb orb negb fst snd process_env_NODE_ENV]. rewrite D.
  destruct (String.eqb_spec e "development") as [E|E].
  - simpl. tauto.
  - simpl. split; [|contradiction]. intros H. exfalso.
    apply (f_equal (@length _)) in H. rewrite length_app in H. simpl in H. lia.
Qed.

Lemma createLogger_overwrites_environment_witness :
  let w' := snd (createLogger (config (Some "staging")) (fresh_world None)) in
  process_env_NODE_ENV w' = Some "staging" /\
  traces w' = traces (fresh_world None) /\ dispatched w' = dispatched (fresh_world None) /\
  getEnvironment (process_env_NODE_ENV w') = "staging" /\
  isDevelopment (process_env_NODE_ENV w') = String.eqb "staging" "development" /\
  (forall (t : Slack.SlackTransport) (level : string),
     Slack.shouldHandle t level (process_env_NODE_ENV w') =
     Slack.shouldHandle t level (Some "staging")) /\
  (forall (h : store) (l0 : logger),
     dispatched (snd (error h l0 [] w')) = dispatched (fresh_world None)
     <-> "staging" = "development").
Proof.
  apply (createLogger_overwrites_environment (config (Some "staging")) (fresh_world None) "staging").
  - reflexivity.
  - discriminate.
Defined.

End LoggerFacts.

(** ** The Slack transport: sanitizeFields *)

Module SanitizeFacts.

Import Errors Slack Samples Vocabulary.

(** *** Unfolding *)

Lemma sanitizeValue_S (fuel : nat) (h : store) (value : value) (depth : nat)
  (seen : list addr) :
  sanitizeValue (S fuel) h value depth seen =
  if Nat.ltb 5 depth then Some (Return (VString "[Max depth reached]"), seen)
  else
    match value with
    | VNull | VUndefined => Some (Return value, seen)
    | VString _ | VNumber _ | VBool _ => Some (Return value, seen)
    | _ =>
        match as_array h value with
        | Some items =>
            match map_items (fun item => sanitizeValue fuel h item (depth + 1))
                    items seen with
            | None => None
            | Some (Throw m, seen') => Some (Throw m, seen')
            | Some (Return xs, seen') => Some (Return (VArray xs), seen')
            end
        | None =>
            if String.eqb (typeof h value) "object" then
              if seen_has value seen
              then Some (Return (VString "[Circular Reference]"), seen)
              else
                let seen' := seen_add value seen in
                if JSON_stringify_throws h value
                then Some (non_serializable h value, seen')
                else Some (Return value, seen')
            else
              Some (try_catch (s <- String_ h value ;; Return (VString s))
                      (fun _ => Return (VString "[Unable to convert to string]")),
                    seen)
        end
    end.
Proof. reflexivity. Qed.

(** *** Termination: the fuel of seven nested calls is never used up *)

Lemma map_items_total (F : value -> sanitizer value) (items : list value) :
  (forall item seen, exists r, F item seen = Some r) ->
  forall seen, exists r, map_items F items seen = Some r.
Proof.
  intros HF. induction items as [|item rest IH]; intros seen; simpl.
  - eexists; reflexivity.
  - destruct (HF item seen) as [[[x|m] seen'] ->].
    + destruct (IH seen') as [[[xs|m] seen''] ->]; eexists; reflexivity.
    + eexists; reflexivity.
Qed.

Lemma map_items_ext (F G : value -> sanitizer value) (items : list value) :
  (forall item seen r, F item seen = Some r -> G item seen = Some r) ->
  forall seen r, map_items F items seen = Some r -> map_items G items seen = Some r.
Proof.
  intros HFG. induction items as [|item rest IH]; intros seen r; simpl; [auto|].
  destruct (F item seen) as [[[x|m] seen']|] eqn:E; [| |discriminate];
    rewrite (HFG _ _ _ E); [|auto].
  destruct (map_items F rest seen') as [r'|] eqn:E'; [|discriminate].
  rewrite (IH _ _ E'). auto.
Qed.

(** A call at [depth] needs at most [7 - depth] nested calls. *)
Lemma sanitizeValue_total (fuel : nat) (h : store) :
  forall (v : value) (depth : nat) (seen : list addr),
    6 - depth < fuel ->
    exists r, sanitizeValue fuel h v depth seen = Some r.
Proof.
  induction fuel as [|fuel IH]; intros v depth seen Hfuel; [lia|].
  rewrite sanitizeValue_S.
  destruct (Nat.ltb 5 depth) eqn:Hd; [eexists; reflexivity|].
  apply Nat.ltb_ge in Hd.
  assert (Hitems : forall items,
             exists r, map_items (fun item => sanitizeValue fuel h item (depth + 1))
                         items seen = Some r).
  { intros items. apply map_items_total. intros item seen'. apply IH. lia. }
  destruct v; try (eexists; reflexivity);
    (destruct (as_array h _) as [elems|];
     [ destruct (Hitems elems) as [[[xs|m] seen'] ->]; eexists; reflexivity
     | destruct (String.eqb _ "object");
       [ destruct (seen_has _ seen); [eexists; reflexivity|];
         destruct (JSON_stringify_throws h _); eexists; reflexivity
       | eexists; reflexivity ] ]).
Qed.

(** More fuel does not change a result. *)
Lemma sanitizeValue_fuel (fuel : nat) (h : store) :
  forall (fuel' : nat) (v : value) (depth : nat) (seen : list addr) r,
    fuel <= fuel' ->
    sanitizeValue fuel h v depth seen = Some r ->
    sanitizeValue fuel' h v depth seen = Some r.
Proof.
  induction fuel as [|fuel IH]; intros fuel' v depth seen r Hle H; [discriminate|].
  destruct fuel' as [|fuel']; [lia|].
  rewrite sanitizeValue_S in *.
  destruct (Nat.ltb 5 depth); [exact H|].
  assert (Hitems : forall items r',
             map_items (fun item => sanitizeValue fuel h item (depth + 1)) items seen
             = Some r' ->
             map_items (fun item => sanitizeValue fuel' h item (depth + 1)) items seen
             = Some r').
  { intros items r'. apply map_items_ext. intros item seen' r''. apply IH. lia. }
  destruct v; try exact H;
    (destruct (as_array h _) as [elems|]; [|exact H];
     destruct (map_items _ elems seen) as [r'|] eqn:E; [|discriminate];
     rewrite (Hitems _ _ E); exact H).
Qed.

Lemma sanitize_entries_total (fuel : nat) (h : store) :
  7 <= fuel ->
  forall (entries sanitized : fields) (seen : list addr),
    exists out,
      sanitize_entries fuel h entries sanitized seen = Some (Return out) /\
      sanitize_entries 7 h entries sanitized seen = Some (Return out).
Proof.
  intros Hfuel entries. induction entries as [|[key v] rest IH]; intros sanitized seen.
  - eexists; split; reflexivity.
  - cbn [sanitize_entries].
    destruct (sanitizeValue_total 7 h v 0 seen) as [[c seen'] E]; [lia|].
    rewrite (sanitizeValue_fuel 7 h fuel v 0 seen _ Hfuel E), E.
    destruct c as [x|m]; cbn [try_catch]; apply IH.
Qed.

(** The self-referential object is named as not serializable; the array
    that holds itself is copied down to depth 5 and cut there. *)
Example sanitizeFields_cyclic :
  sanitizeFields 7 sample_store cyclic_fields =
  Some (Return
    [("a", VString "[Non-serializable Object]");
     ("b", VArray [VNumber (Int 1); VArray [VNumber (Int 1); VArray [VNumber (Int 1);
           VArray [VNumber (Int 1); VArray [VNumber (Int 1);
           VArray [VString "[Max depth reached]";
                   VString "[Max depth reached]"]]]]]])]).
Proof. reflexivity. Qed.

(** *** Idempotence *)

Lemma value_nested_ind (P : value -> Prop) :
  P VUndefined -> P VNull -> (forall b, P (VBool b)) -> (forall n, P (VNumber n)) ->
  (forall s, P (VString s)) -> (forall z, P (VBigInt z)) -> (forall d, P (VSymbol d)) ->
  (forall items, Forall P items -> P (VArray items)) ->
  (forall props, Forall (fun kv => P (snd kv)) props -> P (VObject props)) ->
  (forall a, P (VRef a)) ->
  forall v, P v.
Proof.
  intros HU HN HB HNum HS HBig HSym HArr HObj HRef.
  fix IH 1. intros [| |b|n|s|z|d|items|props|a].
  1-7: clear IH; auto.
  3: clear IH; auto.
  - apply HArr. induction items as [|x xs IHxs]; constructor; [apply IH | exact IHxs].
  - apply HObj. induction props as [|[k x] xs IHxs]; constructor; [apply IH | exact IHxs].
Qed.

Lemma stringify_throws_eq (fuel : nat) (h : store) (stack : list addr) (v : value) :
  stringify_throws fuel h stack v =
  match v with
  | VBigInt _ => true
  | VArray items => existsb (stringify_throws fuel h stack) items
  | VObject props => existsb (fun kv => stringify_throws fuel h stack (snd kv)) props
  | VRef a =>
      match fuel with
      | O => true
      | S fuel' =>
          if existsb (Nat.eqb a) stack then true
          else
            match lookup h a with
            | None => false
            | Some o =>
                match obj_class o with
                | FunctionClass => false
                | ArrayClass =>
                    existsb (stringify_throws fuel' h (a :: stack)) (obj_items o)
                | _ =>
                    existsb (fun kv =>
                               match snd kv with
                               | Data x => stringify_throws fuel' h (a :: stack) x
                               | Accessor (Return x) =>
                                   stringify_throws fuel' h (a :: stack) x
                               | Accessor (Throw _) => true
                               end) (obj_slots o)
                end
            end
      end
  | _ => false
  end.
Proof. destruct fuel; destruct v; reflexivity. Qed.

(** The step through the elements of an array or the properties of an
    object, with the induction hypothesis [IH] on each of them. *)
Ltac through_elements lemma IH :=
  apply lemma; rewrite Forall_forall in IH;
  first [ exact IH | let kv := fresh "kv" in intros kv; apply (IH kv) ].

Lemma existsb_false_impl {A} (f g : A -> bool) (l : list A) :
  (forall x, In x l -> f x = false -> g x = false) ->
  existsb f l = false -> existsb g l = false.
Proof.
  induction l as [|x l IH]; simpl; intros Hfg H; [reflexivity|].
  apply orb_false_iff in H. destruct H as [Hx Hl].
  apply orb_false_iff. split; [apply Hfg; auto | apply IH; auto].
Qed.

Lemma not_seen_incl (a : addr) (s1 s2 : list addr) :
  incl s2 s1 -> existsb (Nat.eqb a) s1 = false -> existsb (Nat.eqb a) s2 = false.
Proof.
  intros Hi H1. destruct (existsb (Nat.eqb a) s2) eqn:E; [|reflexivity].
  apply existsb_exists in E. destruct E as [x [Hx Hax]].
  assert (existsb (Nat.eqb a) s1 = true) by (apply existsb_exists; exists x; auto).
  congruence.
Qed.

(** With more fuel and fewer objects on the stack, a serialization that went
    through still goes through. *)
Lemma stringify_mono (fuel : nat) (h : store) :
  forall (fuel' : nat) (stack stack' : list addr) (v : value),
    fuel <= fuel' -> incl stack' stack ->
    stringify_throws fuel h stack v = false ->
    stringify_throws fuel' h stack' v = false.
Proof.
  induction fuel as [|fuel IHfuel]; intros fuel' stack stack' v Hle Hincl;
    induction v as [| | | | | | |items IH|props IH|a] using value_nested_ind;
    rewrite !stringify_throws_eq; auto.
  - through_elements (@existsb_false_impl) IH.
  - through_elements (@existsb_false_impl) IH.
  - discriminate.
  - through_elements (@existsb_false_impl) IH.
  - through_elements (@existsb_false_impl) IH.
  - destruct fuel' as [|fuel']; [lia|].
    destruct (existsb (Nat.eqb a) stack) eqn:Ea; [discriminate|].
    rewrite (not_seen_incl a stack stack' Hincl Ea).
    assert (Hsub : forall x, stringify_throws fuel h (a :: stack) x = false ->
                             stringify_throws fuel' h (a :: stack') x = false).
    { intros x. apply IHfuel; [lia|]. intros y [->|Hy]; [left; reflexivity|].
      right. apply Hincl. exact Hy. }
    destruct (lookup h a) as [o|]; [|auto].
    destruct (obj_class o); auto; apply existsb_false_impl;
      first [ intros [k [x|[x|m]]] _; simpl; auto; fail
            | intros x _; apply Hsub ].
Qed.

Lemma existsb_ext_in {A} (f g : A -> bool) (l : list A) :
  (forall x, In x l -> f x = g x) -> existsb f l = existsb g l.
Proof.
  induction l as [|x l IH]; simpl; intros H; [reflexivity|].
  rewrite (H x), IH; auto.
Qed.

(** Distinct objects of the store are no more than the store holds. *)
Lemma stack_bound (h : store) (stack : list addr) :
  NoDup stack -> (forall a, In a stack -> a < length h) -> length stack <= length h.
Proof.
  intros Hnd Hlt. rewrite <- (length_seq (length h) 0).
  apply NoDup_incl_length; [exact Hnd|].
  intros a Ha. apply in_seq. specialize (Hlt a Ha). lia.
Qed.

(** The fuel of the probe is sufficient: as long as the fuel left and the
    stack together exceed the size of the store, the answer does not depend on
    the fuel. *)
Lemma stringify_fuel_sufficient (fuel : nat) (h : store) :
  forall (fuel' : nat) (stack : list addr) (v : value),
    NoDup stack -> (forall a, In a stack -> a < length h) ->
    length h < fuel + length stack -> fuel <= fuel' ->
    stringify_throws fuel h stack v = stringify_throws fuel' h stack v.
Proof.
  induction fuel as [|fuel IHfuel]; intros fuel' stack v Hnd Hlt Hfuel Hle;
    induction v as [| | | | | | |items IH|props IH|a] using value_nested_ind;
    rewrite (stringify_throws_eq _ h stack), (stringify_throws_eq fuel' h stack);
    auto.
  - through_elements (@existsb_ext_in) IH.
  - through_elements (@existsb_ext_in) IH.
  - pose proof (stack_bound h stack Hnd Hlt). lia.
  - through_elements (@existsb_ext_in) IH.
  - through_elements (@existsb_ext_in) IH.
  - destruct fuel' as [|fuel']; [lia|].
    destruct (existsb (Nat.eqb a) stack) eqn:Ea; [reflexivity|].
    destruct (lookup h a) as [o|] eqn:Eo; [|reflexivity].
    assert (Hsub : forall x, stringify_throws fuel h (a :: stack) x =
                             stringify_throws fuel' h (a :: stack) x).
    { intros x. apply IHfuel.
      - constructor; [|exact Hnd]. intros Hin.
        assert (existsb (Nat.eqb a) stack = true)
          by (apply existsb_exists; exists a; split; [exact Hin | apply Nat.eqb_refl]).
        congruence.
      - intros b [<-|Hb]; [|apply Hlt; exact Hb].
        apply nth_error_Some. unfold lookup in Eo. congruence.
      - simpl. lia.
      - lia. }
    destruct (obj_class o); auto; apply existsb_ext_in;
      first [ intros [k [x|[x|m]]] _; simpl; auto; fail
            | intros x _; apply Hsub ].
Qed.

(** Any fuel beyond the size of the store gives the answer of
    [JSON_stringify_throws]. *)
Lemma JSON_stringify_fuel (h : store) (v : value) (fuel : nat) :
  S (length h) <= fuel ->
  stringify_throws fuel h [] v = JSON_stringify_throws h v.
Proof.
  intros Hfuel. unfold JSON_stringify_throws. symmetry.
  apply stringify_fuel_sufficient.
  - constructor.
  - intros a [].
  - simpl. lia.
  - exact Hfuel.
Qed.

(** *** JSON data is JSON-safe *)

Lemma json_data_eq (n : nat) (h : store) (v : value) :
  json_data n h v =
  match v with
  | VNull | VBool _ | VNumber _ | VString _ => true
  | VArray items => forallb (json_data n h) items
  | VObject props => forallb (fun kv => json_data n h (snd kv)) props
  | VRef a =>
      match n with
      | O => false
      | S n' =>
          match lookup h a with
          | None => false
          | Some o =>
              match obj_class o with
              | ArrayClass => forallb (json_data n' h) (obj_items o)
              | PlainClass =>
                  forallb (fun kv =>
                             match snd kv with
                             | Data x => json_data n' h x
                             | Accessor _ => false
                             end) (obj_slots o)
              | _ => false
              end
          end
      end
  | _ => false
  end.
Proof. destruct n; destruct v; reflexivity. Qed.

Lemma forallb_impl {A} (f g : A -> bool) (l : list A) :
  (forall x, In x l -> f x = true -> g x = true) ->
  forallb f l = true -> forallb g l = true.
Proof.
  induction l as [|x l IH]; simpl; intros Hfg H; [reflexivity|].
  apply andb_true_iff in H. destruct H as [Hx Hl].
  apply andb_true_iff. split; [apply Hfg; auto | apply IH; auto].
Qed.

Lemma forallb_existsb {A} (f g : A -> bool) (l : list A) :
  (forall x, In x l -> f x = true -> g x = false) ->
  forallb f l = true -> existsb g l = false.
Proof.
  induction l as [|x l IH]; simpl; intros Hfg H; [reflexivity|].
  apply andb_true_iff in H. destruct H as [Hx Hl].
  apply orb_false_iff. split; [apply Hfg; auto | apply IH; auto].
Qed.

Lemma json_data_mono (n : nat) (h : store) :
  forall v, json_data n h v = true -> json_data (S n) h v = true.
Proof.
  induction n as [|n IHn]; intros v;
    induction v as [| | | | | | |items IH|props IH|a] using value_nested_ind;
    rewrite (json_data_eq _ h), (json_data_eq (S _) h); auto.
  - through_elements (@forallb_impl) IH.
  - through_elements (@forallb_impl) IH.
  - discriminate.
  - through_elements (@forallb_impl) IH.
  - through_elements (@forallb_impl) IH.
  - destruct (lookup h a) as [o|]; [|auto].
    destruct (obj_class o); auto; apply forallb_impl;
      first [ intros [k [x|g]] _; simpl; auto; fail
            | intros x _; apply IHn ].
Qed.

(** Serializing JSON data meets no object twice: an object on the stack
    needs more nesting than what is left to serialize. *)
Lemma json_data_stringify (n : nat) (h : store) :
  forall (v : value) (stack : list addr) (fuel : nat),
    json_data n h v = true ->
    (forall s, In s stack -> json_data n h (VRef s) = false) ->
    n <= fuel ->
    stringify_throws fuel h stack v = false.
Proof.
  induction n as [|n IHn]; intros v;
    induction v as [| | | | | | |items IH|props IH|a] using value_nested_ind;
    intros stack fuel Hj Hstack Hfuel;
    try (rewrite stringify_throws_eq; reflexivity);
    try (rewrite json_data_eq in Hj; discriminate Hj).
  - rewrite json_data_eq in Hj. rewrite stringify_throws_eq.
    revert Hj. apply forallb_existsb. rewrite Forall_forall in IH.
    intros x Hx Hjx. apply IH; auto.
  - rewrite json_data_eq in Hj. rewrite stringify_throws_eq.
    revert Hj. apply forallb_existsb. rewrite Forall_forall in IH.
    intros kv Hkv Hjx. apply (IH kv); auto.
  - rewrite json_data_eq in Hj. rewrite stringify_throws_eq.
    revert Hj. apply forallb_existsb. rewrite Forall_forall in IH.
    intros x Hx Hjx. apply IH; auto.
  - rewrite json_data_eq in Hj. rewrite stringify_throws_eq.
    revert Hj. apply forallb_existsb. rewrite Forall_forall in IH.
    intros kv Hkv Hjx. apply (IH kv); auto.
  - assert (Hlower : forall s, In s stack -> json_data n h (VRef s) = false).
    { intros s Hs. specialize (Hstack s Hs).
      destruct (json_data n h (VRef s)) eqn:E; [|reflexivity].
      rewrite (json_data_mono n h _ E) in Hstack. discriminate. }
    destruct (json_data n h (VRef a)) eqn:Ea.
    { apply IHn; [exact Ea | exact Hlower | lia]. }
    destruct fuel as [|fuel]; [lia|].
    assert (Hnew : existsb (Nat.eqb a) stack = false).
    { destruct (existsb (Nat.eqb a) stack) eqn:E; [|reflexivity].
      apply existsb_exists in E. destruct E as [s [Hs Has]].
      apply Nat.eqb_eq in Has. subst s. rewrite (Hstack a Hs) in Hj. discriminate. }
    assert (Hsub : forall x, json_data n h x = true ->
                             stringify_throws fuel h (a :: stack) x = false).
    { intros x Hx. apply IHn; [exact Hx | | lia].
      intros s [<-|Hs]; [exact Ea | apply Hlower; exact Hs]. }
    rewrite json_data_eq in Hj. rewrite stringify_throws_eq, Hnew.
    destruct (lookup h a) as [o|]; [|discriminate].
    destruct (obj_class o); try discriminate; revert Hj; apply forallb_existsb.
    + intros [k [x|g]] _; simpl; [apply Hsub | discriminate].
    + intros x _. apply Hsub.
Qed.

(** JSON data, which has no cycle, is JSON-safe. *)
Lemma json_data_safe (n : nat) (h : store) (v : value) :
  json_data n h v = true -> JSON_safe h v.
Proof.
  intros Hj. unfold JSON_safe.
  rewrite <- (JSON_stringify_fuel h v (n + S (length h))); [|lia].
  apply (json_data_stringify n h v [] _ Hj); [intros s [] | lia].
Qed.

(** The elements of a JSON-safe array are JSON-safe. *)
Lemma JSON_safe_items (h : store) (v : value) (elems : list value) :
  as_array h v = Some elems -> JSON_safe h v -> Forall (JSON_safe h) elems.
Proof.
  unfold JSON_safe, JSON_stringify_throws. intros Ha Hv.
  rewrite stringify_throws_eq in Hv. apply Forall_forall. intros x Hx.
  destruct v; try discriminate Ha; simpl in Ha.
  - injection Ha as <-.
    destruct (stringify_throws (S (length h)) h [] x) eqn:E; [|reflexivity].
    assert (existsb (stringify_throws (S (length h)) h []) items = true)
      by (apply existsb_exists; exists x; auto).
    congruence.
  - simpl in Hv. destruct (lookup h a) as [o|]; [|discriminate].
    destruct (obj_class o); try discriminate. injection Ha as <-.
    apply (stringify_mono (length h) h (S (length h)) [a] []); [lia | intros y [] |].
    destruct (stringify_throws (length h) h [a] x) eqn:E; [|reflexivity].
    assert (existsb (stringify_throws (length h) h [a]) (obj_items o) = true)
      by (apply existsb_exists; exists x; auto).
    congruence.
Qed.

(** [seen] only grows. *)
Lemma map_items_seen (F : value -> sanitizer value) (items : list value) :
  (forall item seen c seen', F item seen = Some (c, seen') -> incl seen seen') ->
  forall seen c seen', map_items F items seen = Some (c, seen') -> incl seen seen'.
Proof.
  intros HF. induction items as [|item rest IH]; intros seen c seen'; simpl.
  - intros [= _ <-]. apply incl_refl.
  - destruct (F item seen) as [[[x|m] s1]|] eqn:E; [| |discriminate].
    + destruct (map_items F rest s1) as [[[xs|m] s2]|] eqn:E'; [| |discriminate];
        intros [= _ <-]; eapply incl_tran; eauto.
    + intros [= _ <-]. eauto.
Qed.

Lemma sanitizeValue_seen (fuel : nat) (h : store) :
  forall (v : value) (depth : nat) (seen : list addr) c seen',
    sanitizeValue fuel h v depth seen = Some (c, seen') -> incl seen seen'.
Proof.
  induction fuel as [|fuel IH]; intros v depth seen c seen' H; [discriminate|].
  rewrite sanitizeValue_S in H.
  destruct (Nat.ltb 5 depth); [injection H as _ <-; apply incl_refl|].
  assert (Hitems : forall elems c' s',
             map_items (fun item => sanitizeValue fuel h item (depth + 1)) elems seen
             = Some (c', s') -> incl seen s').
  { intros elems c' s'. apply map_items_seen. intros item s0 c0 s0'. apply IH. }
  destruct v; try (injection H as _ <-; apply incl_refl);
    (destruct (as_array h _) as [elems|];
     [ destruct (map_items _ elems seen) as [[[xs|m] s']|] eqn:E; [| |discriminate];
       injection H as _ <-; eapply Hitems; eauto
     | destruct (String.eqb _ "object");
       [ destruct (seen_has _ seen); [injection H as _ <-; apply incl_refl|];
         destruct (JSON_stringify_throws h _); injection H as _ <-;
         first [apply incl_refl | apply incl_tl, incl_refl]
       | injection H as _ <-; apply incl_refl ] ]).
Qed.

(** The second pass over an array that the first pass returned. *)
Lemma map_items_again (h : store) (F : value -> sanitizer value) :
  (forall item s1 x s1',
     F item s1 = Some (Return x, s1') -> JSON_safe h item ->
     forall s2, incl s2 s1 ->
     exists s2', F x s2 = Some (Return x, s2') /\ incl s2' s1') ->
  forall items s1 xs s1',
    map_items F items s1 = Some (Return xs, s1') -> Forall (JSON_safe h) items ->
    forall s2, incl s2 s1 ->
    exists s2', map_items F xs s2 = Some (Return xs, s2') /\ incl s2' s1'.
Proof.
  intros HF. induction items as [|item rest IH]; intros s1 xs s1'; simpl.
  - intros [= <- <-] _ s2 Hs. exists s2. split; [reflexivity | exact Hs].
  - destruct (F item s1) as [[[x|m] sa]|] eqn:E; try discriminate.
    destruct (map_items F rest sa) as [[[ys|m] sb]|] eqn:E'; try discriminate.
    intros [= <- <-] Hsafe s2 Hs. inversion Hsafe as [|? ? Hitem Hrest]; subst.
    destruct (HF _ _ _ _ E Hitem s2 Hs) as [s2a [Ex Hs2a]].
    destruct (IH _ _ _ E' Hrest s2a Hs2a) as [s2b [Eys Hs2b]].
    exists s2b. simpl. rewrite Ex, Eys. split; [reflexivity | exact Hs2b].
Qed.

Lemma sanitizeValue_string (fuel : nat) (h : store) (t : string) (depth : nat)
  (seen : list addr) :
  Nat.ltb 5 depth = false ->
  sanitizeValue (S fuel) h (VString t) depth seen = Some (Return (VString t), seen).
Proof. intros Hd. rewrite sanitizeValue_S, Hd. reflexivity. Qed.

(** The second pass returns what the first pass returned: a value that the
    first pass kept or built is kept as it is, with no more objects seen than
    in the first pass. *)
Lemma sanitizeValue_again (fuel : nat) (h : store) :
  forall (v : value) (depth : nat) (s1 : list addr) (x : value) (s1' : list addr),
    sanitizeValue fuel h v depth s1 = Some (Return x, s1') -> JSON_safe h v ->
    forall s2, incl s2 s1 ->
    exists s2', sanitizeValue fuel h x depth s2 = Some (Return x, s2') /\ incl s2' s1'.
Proof.
  induction fuel as [|fuel IH]; intros v depth s1 x s1' H Hsafe s2 Hs; [discriminate|].
  rewrite sanitizeValue_S in H.
  destruct (Nat.ltb 5 depth) eqn:Hd.
  { injection H as <- <-. exists s2. rewrite sanitizeValue_S, Hd.
    split; [reflexivity | exact Hs]. }
  destruct v;
    try (injection H as <- <-; exists s2; rewrite sanitizeValue_S, Hd;
         split; [reflexivity | exact Hs]).
  all: destruct (as_array h _) as [elems|] eqn:Ea.
  all: try discriminate Ea.
  all: try (destruct (map_items _ elems s1) as [[[xs|m] sa]|] eqn:E; try discriminate;
            injection H as <- <-;
            destruct (map_items_again h
                        (fun item => sanitizeValue fuel h item (depth + 1))
                        (fun item sa0 y sa0' => IH item (depth + 1) sa0 y sa0')
                        elems s1 xs sa E (JSON_safe_items h _ elems Ea Hsafe) s2 Hs)
              as [s2' [E2 Hs2']];
            exists s2'; rewrite sanitizeValue_S, Hd; cbn [as_array]; rewrite E2;
            split; [reflexivity | exact Hs2']).
  all: destruct (String.eqb (typeof h _) "object") eqn:Et.
  all: try (destruct (String_ h _);
            (cbn [bind try_catch] in H; injection H as <- <-; exists s2;
             (split; [apply sanitizeValue_string; exact Hd | exact Hs]))).
  all: try discriminate Et.
  all: destruct (seen_has _ s1) eqn:Eseen;
       [injection H as <- <-; exists s2;
        split; [apply sanitizeValue_string; exact Hd | exact Hs]|].
  all: unfold JSON_safe in Hsafe; rewrite Hsafe in H; injection H as <- <-.
  - exists s2. rewrite sanitizeValue_S, Hd. cbn [as_array typeof seen_has seen_add].
    rewrite Hsafe. split; [reflexivity | exact Hs].
  - exists (a :: s2). rewrite sanitizeValue_S, Hd, Ea, Et.
    cbn [seen_has seen_add] in *.
    rewrite (not_seen_incl a s1 s2 Hs Eseen), Hsafe.
    split; [reflexivity|].
    intros y [->|Hy]; [left; reflexivity | right; apply Hs; exact Hy].
Qed.

Lemma obj_set_fresh {A} (l : list (string * A)) (k : string) (x : A) :
  ~ In k (map fst l) -> obj_set l k x = (l ++ [(k, x)])%list.
Proof.
  induction l as [|[k' y] l IH]; simpl; intros Hk; [reflexivity|].
  destruct (String.eqb_spec k k') as [->|Hne]; [exfalso; auto|].
  rewrite IH; [reflexivity | auto].
Qed.

(** The loop, twice. *)
Lemma sanitize_entries_again (fuel : nat) (h : store) :
  forall (entries acc1 : fields) (seen1 : list addr) (out1 : fields),
    sanitize_entries fuel h entries acc1 seen1 = Some (Return out1) ->
    NoDup (map fst acc1 ++ map fst entries) ->
    Forall (fun kv => JSON_safe h (snd kv)) entries ->
    exists news,
      out1 = (acc1 ++ news)%list /\
      map fst news = map fst entries /\
      forall (acc2 : fields) (s2 : list addr),
        incl s2 seen1 -> NoDup (map fst acc2 ++ map fst news) ->
        sanitize_entries fuel h news acc2 s2 = Some (Return (acc2 ++ news)%list).
Proof.
  induction entries as [|[key v] rest IH]; intros acc1 seen1 out1 H Hkeys Hsafe.
  - injection H as <-. exists []. rewrite app_nil_r. repeat split.
    intros acc2 s2 _ _. simpl. rewrite app_nil_r. reflexivity.
  - cbn [sanitize_entries] in H. simpl in Hkeys.
    inversion Hsafe as [|? ? Hv Hrest]; subst. simpl in Hv.
    destruct (sanitizeValue fuel h v 0 seen1) as [[c seen1']|] eqn:E; [|discriminate].
    assert (Hfresh : ~ In key (map fst acc1)).
    { intros Hin. apply (NoDup_remove_2 _ _ _ Hkeys). apply in_or_app. auto. }
    set (x := match c with
              | Return y => y
              | Throw m =>
                  VString ("[Error sanitizing field: " ++ message_or_unknown m ++ "]")
              end).
    assert (Hx : try_catch c
                   (fun m => Return (VString ("[Error sanitizing field: "
                                              ++ message_or_unknown m ++ "]")))
                 = Return x) by (destruct c; reflexivity).
    rewrite Hx, (obj_set_fresh acc1 key x Hfresh) in H.
    destruct (IH (acc1 ++ [(key, x)])%list seen1' out1 H) as [news [Hout [Hk Hagain]]].
    { rewrite map_app, <- app_assoc. exact Hkeys. }
    { exact Hrest. }
    exists ((key, x) :: news). split; [rewrite Hout, <- app_assoc; reflexivity|].
    split; [simpl; rewrite Hk; reflexivity|].
    intros acc2 s2 Hs2 Hkeys2. cbn [sanitize_entries]. simpl in Hkeys2.
    assert (Hfresh2 : ~ In key (map fst acc2)).
    { intros Hin. apply (NoDup_remove_2 _ _ _ Hkeys2). apply in_or_app. auto. }
    assert (Hsecond : exists s2', sanitizeValue fuel h x 0 s2 = Some (Return x, s2')
                                  /\ incl s2' seen1').
    { destruct c as [y|m]; subst x.
      - apply (sanitizeValue_again fuel h v 0 seen1 y seen1' E Hv s2 Hs2).
      - exists s2. split.
        + destruct fuel as [|fuel']; [discriminate E | reflexivity].
        + eapply incl_tran; [exact Hs2 | eapply sanitizeValue_seen; exact E]. }
    destruct Hsecond as [s2' [E2 Hs2']]. rewrite E2. cbn [try_catch].
    rewrite (obj_set_fresh acc2 key x Hfresh2).
    rewrite (Hagain (acc2 ++ [(key, x)])%list s2' Hs2').
    + rewrite <- app_assoc. reflexivity.
    + rewrite map_app, <- app_assoc. exact Hkeys2.
Qed.

(** C8: on a fields mapping whose values are JSON-safe (so acyclic, as far
    as the serialization goes), sanitizing twice gives what sanitizing once
    gives. The keys of a JavaScript object are distinct. *)
Theorem sanitizeFields_idempotent (h : store) (x : fields) (fuel : nat) :
  7 <= fuel ->
  distinct_keys x ->
  Forall (fun kv => JSON_safe h (snd kv)) x ->
  exists y,
    sanitizeFields fuel h x = Some (Return y) /\
    sanitizeFields fuel h y = Some (Return y).
Proof.
  intros Hfuel Hkeys Hsafe. unfold sanitizeFields. unfold distinct_keys in Hkeys.
  destruct (sanitize_entries_total fuel h Hfuel x [] []) as [y [Hy _]].
  exists y. split; [exact Hy|].
  destruct (sanitize_entries_again fuel h x [] [] y Hy Hkeys Hsafe)
    as [news [Hout [Hk Hagain]]].
  simpl in Hout. subst y. apply (Hagain [] []).
  - apply incl_refl.
  - simpl. rewrite Hk. exact Hkeys.
Qed.

(** So sanitizing is idempotent on every mapping of JSON data. *)
Corollary sanitizeFields_idempotent_json_data (h : store) (x : fields) (fuel n : nat) :
  7 <= fuel ->
  distinct_keys x ->
  forallb (fun kv => json_data n h (snd kv)) x = true ->
  exists y,
    sanitizeFields fuel h x = Some (Return y) /\
    sanitizeFields fuel h y = Some (Return y).
Proof.
  intros Hfuel Hkeys Hdata.
  destruct (sanitize_entries_total fuel h Hfuel x [] []) as [y [Hy _]].
  exists y. split; [exact Hy|].
  assert (Hsafe : Forall (fun kv => JSON_safe h (snd kv)) x).
  { apply Forall_forall. intros kv Hkv. apply (json_data_safe n).
    rewrite forallb_forall in Hdata. apply Hdata. exact Hkv. }
  destruct (sanitize_entries_again fuel h x [] [] y Hy Hkeys Hsafe)
    as [news [Hout [Hk Hagain]]].
  simpl in Hout. subst y. apply (Hagain [] []).
  - apply incl_refl.
  - simpl. rewrite Hk. exact Hkeys.
Qed.

Lemma sanitizeFields_idempotent_witness :
  distinct_keys json_fields /\
  Forall (fun kv => JSON_safe sample_store (snd kv)) json_fields /\
  exists y,
    sanitizeFields 7 sample_store json_fields = Some (Return y) /\
    sanitizeFields 7 sample_store y = Some (Return y).
Proof.
  assert (Hkeys : distinct_keys json_fields).
  { unfold distinct_keys. repeat constructor; simpl; intuition discriminate. }
  assert (Hsafe : Forall (fun kv => JSON_safe sample_store (snd kv)) json_fields).
  { repeat constructor. }
  split; [exact Hkeys|]. split; [exact Hsafe|].
  apply (sanitizeFields_idempotent sample_store json_fields 7 (le_n 7) Hkeys Hsafe).
Defined.

Example json_fields_data :
  forallb (fun kv => json_data 2 sample_store (snd kv)) json_fields = true.
Proof. reflexivity. Qed.

(** The shared object is kept once and marked where it comes again; the
    second pass returns the same mapping. *)
Example sanitizeFields_json :
  sanitizeFields 7 sample_store json_fields =
  Some (Return
    [("user", VRef 2);
     ("users", VArray [VString "[Circular Reference]"; VString "[Circular Reference]"]);
     ("deep", VArray [VArray [VArray [VArray [VArray [VArray
                [VString "[Max depth reached]"]]]]]]);
     ("note", VString "x"); ("nothing", VNull); ("flag", VBool true)]).
Proof. reflexivity. Qed.

(** *** Termination, and the depth limit *)

Import Reports.

Lemma sanitizeValue_primitive (fuel : nat) (h : store) (v : value) (seen : list addr)
  c seen' :
  primitive v = true ->
  sanitizeValue fuel h v 0 seen = Some (c, seen') -> c = Return v /\ seen' = seen.
Proof.
  intros Hp H. destruct fuel as [|fuel]; [discriminate|].
  rewrite sanitizeValue_S in H. simpl in H.
  destruct v; try discriminate Hp; injection H as <- <-; split; reflexivity.
Qed.

(** The loop keeps the keys in their order, and a primitive value as it
    is. *)
Lemma sanitize_entries_shape (fuel : nat) (h : store) :
  forall (entries acc : fields) (seen : list addr) (out : fields),
    sanitize_entries fuel h entries acc seen = Some (Return out) ->
    NoDup (map fst acc ++ map fst entries) ->
    exists news,
      out = (acc ++ news)%list /\
      Forall2 (fun kv kv' =>
                 fst kv' = fst kv /\ (primitive (snd kv) = true -> snd kv' = snd kv))
              entries news.
Proof.
  induction entries as [|[key v] rest IH]; intros acc seen out H Hkeys.
  - injection H as <-. exists []. rewrite app_nil_r. split; constructor.
  - cbn [sanitize_entries] in H. simpl in Hkeys.
    destruct (sanitizeValue fuel h v 0 seen) as [[c seen']|] eqn:E; [|discriminate].
    assert (Hfresh : ~ In key (map fst acc)).
    { intros Hin. apply (NoDup_remove_2 _ _ _ Hkeys). apply in_or_app. auto. }
    destruct (try_catch c _) as [x|m] eqn:Ex; [|discriminate].
    rewrite (obj_set_fresh acc key x Hfresh) in H.
    destruct (IH _ _ _ H) as [news [Hout Hnews]].
    { rewrite map_app, <- app_assoc. exact Hkeys. }
    exists ((key, x) :: news). split; [rewrite Hout, <- app_assoc; reflexivity|].
    constructor; [|exact Hnews]. split; [reflexivity|]. simpl. intros Hp.
    destruct (sanitizeValue_primitive fuel h v seen c seen' Hp E) as [-> _].
    simpl in Ex. congruence.
Qed.

(** *** Reading the entries *)




(** *** The depth limit in the result *)





Lemma obj_set_Forall (P : value -> Prop) (l : fields) (k : string) (x : value) :
  Forall (fun kv => P (snd kv)) l -> P x -> Forall (fun kv => P (snd kv)) (obj_set l k x).
Proof.
  intros Hl Hx. induction Hl as [|[k' y] l Hy Hl IH]; simpl.
  - constructor; [exact Hx | constructor].
  - destruct (String.eqb k k'); constructor; auto.
Qed.







(** The mapping returned for [{ a, b, deep, note }]: the self-referential
    object is named, the array that holds itself and the array of seven
    levels are copied down to depth 5 and cut there, the string is kept. *)
Example sanitizeFields_mixed :
  SlackSend.sanitizeFields_of 9 sample_store (VObject mixed_fields) =
  Some (Return
    [("a", VString "[Non-serializable Object]");
     ("b", VArray [VNumber (Int 1); VArray [VNumber (Int 1); VArray [VNumber (Int 1);
           VArray [VNumber (Int 1); VArray [VNumber (Int 1);
           VArray [VString "[Max depth reached]";
                   VString "[Max depth reached]"]]]]]]);
     ("deep", VArray [VArray [VArray [VArray [VArray [VArray
                [VString "[Max depth reached]"]]]]]]);
     ("note", VString "x")]).
Proof. reflexivity. Qed.

(** The cut reaches the result: where the array that holds itself is copied,
    the sixth level holds the mark; left as it was, the array would not pass. *)
Example cyclic_array_is_cut :
  within_depth sample_store 6 (VRef 1) = false /\
  exists sanitized,
    sanitizeFields 7 sample_store cyclic_fields = Some (Return sanitized) /\
    forallb (fun kv => within_depth sample_store 6 (snd kv)) sanitized = true.
Proof. split; [reflexivity|]. eexists. split; reflexivity. Qed.

End SanitizeFacts.

(** ** More on the error normalizer and the reclassifier *)

Module ErrorsMore.

Import Errors Samples Vocabulary Reports MoreSamples.

Lemma bind_inv {A B} (c : completion A) (k : A -> completion B) (y : B) :
  bind c k = Return y -> exists x, c = Return x /\ k x = Return y.
Proof. destruct c as [x|m]; simpl; [eauto | discriminate]. Qed.

Lemma truthy_not_null (v : value) :
  truthy v = true -> match v with VNull => true | _ => false end = false.
Proof. destruct v; simpl; congruence. Qed.



(** The description of the format, as the clauses of the mistyped fields
    joined by "; " in the order message, reason, details, stack; the mapping
    is flagged exactly when there is such a clause. *)
Theorem extractErrorFields_format_error (h : store) (error m r d st : value)
  (sm sr sd : string) :
  truthy error = true -> typeof h error = "object" ->
  Get h error "message" = Return m -> Get h error "reason" = Return r ->
  Get h error "details" = Return d -> Get h error "stack" = Return st ->
  String_ h m = Return sm -> String_ h r = Return sr -> String_ h d = Return sd ->
  exists fs,
    extractErrorFields h error = Return fs /\
    assoc "errorFormatError" fs =
      match format_clauses h m r d st with
      | [] => None
      | clauses => Some (VString (join "; " clauses))
      end /\
    assoc "errorFormatInvalid" fs =
      match format_clauses h m r d st with
      | [] => None
      | _ => Some (VBool true)
      end.
Proof.
  intros Ht Hty Hm Hr Hd Hs Sm Sr Sd.
  unfold extractErrorFields, extract, format_clauses, mistyped, mistyped_stack.
  rewrite Ht, Hty, (truthy_not_null _ Ht). cbn [negb String.eqb Ascii.eqb Bool.eqb].
  unfold format_error.
  repeat first
    [ rewrite Hm | rewrite Hr | rewrite Hd | rewrite Hs
    | rewrite Sm | rewrite Sr | rewrite Sd
    | progress simpl
    | match goal with
      | |- context [is_undefined ?v] => destruct (is_undefined v)
      | |- context [string_or_number h ?v] => destruct (string_or_number h v)
      | |- context [String.eqb (typeof h st) "string"] =>
          destruct (String.eqb (typeof h st) "string")
      end ];
    eexists; (split; [reflexivity|]); split; reflexivity.
Qed.

Lemma extractErrorFields_format_error_witness :
  exists fs,
    extractErrorFields [] malformed_error = Return fs /\
    assoc "errorFormatError" fs =
      Some (VString ("error.message must be a string or number; "
                     ++ "error.details must be a string or number; "
                     ++ "error.stack must be a string")) /\
    assoc "errorFormatInvalid" fs = Some (VBool true).
Proof.
  apply (extractErrorFields_format_error [] malformed_error
           (VObject []) (VString "r") (VArray []) (VNumber (Int 123))
           "[object Object]" "r" ""); reflexivity.
Defined.

(** Taking apart an equation between a computation of the normalizer and a
    result, one [bind] and one test at a time. *)
Ltac crunch H :=
  simpl in H;
  lazymatch type of H with
  | bind _ _ = Return _ =>
      let x := fresh "x" in
      let B := fresh "B" in
      apply bind_inv in H; destruct H as (x & B & H); crunch B; crunch H
  | (if ?b then _ else _) = Return _ => destruct b; crunch H
  | Return _ = Return _ => injection H as H; subst
  | Throw _ = Return _ => discriminate H
  | _ => idtac
  end.

(** Whatever the input, a mapping that the normalizer returns with the key
    [errorFormatInvalid] has it true and has a description that is not
    empty. *)
Theorem extractErrorFields_invalid_described (h : store) (error : value) (fs : fields)
  (flag : value) :
  extractErrorFields h error = Return fs ->
  assoc "errorFormatInvalid" fs = Some flag ->
  flag = VBool true /\
  exists description,
    assoc "errorFormatError" fs = Some (VString description) /\ description <> "".
Proof.
  intros E. revert flag. unfold extractErrorFields in E.
  destruct (negb (truthy error)); [injection E as <-; discriminate|].
  destruct (extract h error) as [fs0|msg] eqn:X; cbn [try_catch] in E.
  - injection E as ->. unfold extract, format_error in X.
    destruct (negb (String.eqb (typeof h error) "object"));
      [|destruct (match error with VNull => true | _ => false end)];
      crunch X; simpl; intros flag Hf; try discriminate Hf; injection Hf as <-;
      (split; [reflexivity | eexists; split; [reflexivity | discriminate]]).
  - crunch E. simpl. intros flag Hf. injection Hf as <-.
    split; [reflexivity | eexists; split; [reflexivity | discriminate]].
Qed.

Lemma extractErrorFields_invalid_described_witness :
  VBool true = VBool true /\
  exists description,
    assoc "errorFormatError"
      [("errorFormatInvalid", VBool true);
       ("errorFormatError", VString "Expected error to be an object, but received string");
       ("errorRawValue", VString "boom")] = Some (VString description) /\
    description <> "".
Proof.
  apply (extractErrorFields_invalid_described [] (VString "boom") _ (VBool true));
    reflexivity.
Defined.

(** The reclassifier on an error whose [message] and [reason] are strings or
    absent: it returns, and it says yes exactly when the error is truthy, there
    is a pattern, and some pattern occurs inside the message or the reason. *)
Theorem shouldTreatAsWarning_substring (h : store) (error : value)
  (patterns : list string) (m r : value) (ms rs : string) :
  Get h error "message" = Return m -> text m = Some ms ->
  Get h error "reason" = Return r -> text r = Some rs ->
  exists b,
    shouldTreatAsWarning h error patterns = Return b /\
    (b = true <->
     truthy error = true /\ patterns <> [] /\
     exists p, In p patterns /\
               ((exists a c, ms = a ++ p ++ c) \/ (exists a c, rs = a ++ p ++ c))).
Proof.
  intros Hm Tm Hr Tr.
  rewrite (ErrorsFacts.shouldTreatAsWarning_strings h error patterns m r ms rs Hm Tm Hr Tr).
  eexists. split; [reflexivity|].
  rewrite !andb_true_iff, negb_true_iff, Nat.eqb_neq, existsb_exists.
  assert (Hlen : length patterns <> 0 <-> patterns <> []).
  { destruct patterns; simpl; split; congruence. }
  rewrite Hlen. split.
  - intros [[Ht Hp] [p [Hin Hinc]]]. repeat split; try assumption.
    exists p. split; [exact Hin|].
    apply orb_true_iff in Hinc. rewrite !ErrorsFacts.includes_iff in Hinc. exact Hinc.
  - intros (Ht & Hp & p & Hin & Hinc). repeat split; try assumption.
    exists p. split; [exact Hin|].
    apply orb_true_iff. rewrite !ErrorsFacts.includes_iff. exact Hinc.
Qed.

Lemma shouldTreatAsWarning_substring_witness :
  exists b,
    shouldTreatAsWarning [] failed_fetch DEFAULT_WARNING_PATTERNS = Return b /\
    (b = true <->
     truthy failed_fetch = true /\ DEFAULT_WARNING_PATTERNS <> [] /\
     exists p, In p DEFAULT_WARNING_PATTERNS /\
               ((exists a c, "TypeError: Failed to fetch" = a ++ p ++ c)
                \/ (exists a c, "" = a ++ p ++ c))).
Proof.
  apply (shouldTreatAsWarning_substring [] failed_fetch DEFAULT_WARNING_PATTERNS
           (VString "TypeError: Failed to fetch") VUndefined
           "TypeError: Failed to fetch" ""); reflexivity.
Defined.

(** An object whose [message] getter throws an [Error], and which itself
    converts to a string: the normalizer returns the three fields that report
    the failure, the message of the [Error] inside the description and the
    conversion of the object as the raw value; no other field is read. *)
Theorem extractErrorFields_reports_getter_failure (h : store) (error : value)
  (m s : string) :
  truthy error = true -> typeof h error = "object" ->
  Get h error "message" = Throw m ->
  String_ h error = Return s ->
  extractErrorFields h error =
  Return [("errorFormatInvalid", VBool true);
          ("errorFormatError", VString ("Failed to extract error fields: " ++ m));
          ("errorRawValue", VString s)].
Proof.
  intros Ht Hty Hm Hs. unfold extractErrorFields, extract.
  rewrite Ht, Hty, (truthy_not_null _ Ht), Hm.
  cbn [negb String.eqb Ascii.eqb Bool.eqb bind try_catch].
  rewrite Hs. reflexivity.
Qed.

Lemma extractErrorFields_reports_getter_failure_witness :
  extractErrorFields [guarded] (VRef 0) =
  Return [("errorFormatInvalid", VBool true);
          ("errorFormatError", VString "Failed to extract error fields: boom");
          ("errorRawValue", VString "[object Object]")].
Proof.
  apply (extractErrorFields_reports_getter_failure [guarded] (VRef 0) "boom"
           "[object Object]");
    reflexivity.
Defined.

End ErrorsMore.

(** ** More on the environment *)

Module EnvironmentMore.

Import Environment.

(** The three predicates exclude one another, and none of them holds exactly
    when the setting is a name other than the three. *)
Theorem environment_predicates (env : NODE_ENV) :
  isProduction env && isStaging env = false /\
  isProduction env && isDevelopment env = false /\
  isStaging env && isDevelopment env = false /\
  (isProduction env || isStaging env || isDevelopment env = false <->
   exists s, env = Some s /\ s <> "" /\
             s <> "production" /\ s <> "staging" /\ s <> "development").
Proof.
  unfold isProduction, isStaging, isDevelopment,
    ENVIRONMENT_PRODUCTION, ENVIRONMENT_STAGING, ENVIRONMENT_DEVELOPMENT.
  destruct (String.eqb_spec (getEnvironment env) "production") as [Ep|Ep];
    destruct (String.eqb_spec (getEnvironment env) "staging") as [Es|Es];
    destruct (String.eqb_spec (getEnvironment env) "development") as [Ed|Ed];
    simpl; try congruence; repeat (split; [reflexivity|]).
  all: split; try discriminate.
  all: try (intros (s & -> & Hs & Hp & Hst & Hd);
            rewrite (EnvironmentFacts.getEnvironment_set s Hs) in *; congruence).
  intros _. destruct env as [s|]; [|exfalso; apply Ed; reflexivity].
  exists s. unfold getEnvironment, ENVIRONMENT_DEVELOPMENT in *.
  destruct (String.eqb_spec s ""); [exfalso; apply Ed; reflexivity|].
  repeat split; assumption.
Qed.

End EnvironmentMore.

(** ** More on the facade *)

Module FacadeFacts.

Import Environment Errors Logger Facade Samples Vocabulary Reports MoreSamples.

(** [error(message)] and [errorBackground(message)] with the message alone:
    in every environment one entry is dispatched, at the severity of the
    method, with the message as it is, no error and no error fields, and no
    trace is written. *)
Theorem error_message_only (h : store) (l : logger) (message : value) (w : world) :
  error h l [message] w =
    (Return tt, sendToTransports l "error" message [] [] VUndefined w) /\
  errorBackground h l [message] w =
    (Return tt,
     sendToTransports l "error-background" message [] [("isBackground", VBool true)]
       VUndefined w) /\
  entry_fields h [] VUndefined = Return [] /\
  traces (snd (error h l [message] w)) = traces w.
Proof. repeat split. Qed.

(** A call of [error] or [errorBackground] without arguments or with more
    than two is dropped in development: it returns, one trace is written and
    nothing is dispatched. *)
Theorem wrong_arity_dropped_in_development
  (h : store) (l : logger) (args : list value) (w : world) :
  invalid_arity args -> isDevelopment (process_env_NODE_ENV w) = true ->
  error h l args w = errorBackground h l args w /\
  fst (error h l args w) = Return tt /\
  dispatched (snd (error h l args w)) = dispatched w /\
  length (traces (snd (error h l args w))) = S (length (traces w)).
Proof.
  intros Ha Hd. unfold error, errorBackground, validateErrorArgs.
  assert (E : Nat.eqb (length args) 0 || Nat.ltb 2 (length args) = true).
  { apply orb_true_iff. destruct Ha as [H|H].
    - left. apply Nat.eqb_eq. exact H.
    - right. apply Nat.ltb_lt. exact H. }
  rewrite E. cbn [process_env_NODE_ENV]. rewrite Hd. simpl.
  repeat split. rewrite length_app. simpl. lia.
Qed.

Lemma wrong_arity_dropped_in_development_witness :
  error [] production_logger [] (fresh_world None)
  = errorBackground [] production_logger [] (fresh_world None) /\
  fst (error [] production_logger [] (fresh_world None)) = Return tt /\
  dispatched (snd (error [] production_logger [] (fresh_world None))) = [] /\
  length (traces (snd (error [] production_logger [] (fresh_world None)))) = 1.
Proof.
  apply (wrong_arity_dropped_in_development [] production_logger [] (fresh_world None)).
  - left. reflexivity.
  - reflexivity.
Defined.

(** Whatever the arguments, [error] and [errorBackground] dispatch at most
    one entry: at warn severity without fields, or at the severity of the
    method; the entry of a background error carries [isBackground] exactly
    when it is not demoted to a warning. *)
Theorem error_dispatches_at_most_once
  (h : store) (l : logger) (args : list value) (w : world) :
  (dispatched (snd (error h l args w)) = dispatched w \/
   exists d, dispatched (snd (error h l args w)) = (dispatched w ++ [d])%list /\
             d_fields d = [] /\ (d_level d = "warn" \/ d_level d = "error")) /\
  (dispatched (snd (errorBackground h l args w)) = dispatched w \/
   exists d, dispatched (snd (errorBackground h l args w)) = (dispatched w ++ [d])%list /\
             ((d_level d = "warn" /\ d_fields d = []) \/
              (d_level d = "error-background" /\
               d_fields d = [("isBackground", VBool true)]))).
Proof.
  unfold error, errorBackground, validateErrorArgs.
  destruct (Nat.eqb (length args) 0 || Nat.ltb 2 (length args));
    cbn [negb andb process_env_NODE_ENV];
    try destruct (isDevelopment (process_env_NODE_ENV w)); cbn [snd dispatched];
    try (split; left; reflexivity);
    destruct (treated_as_warning h l (nth 1 args VUndefined)) as [[|]|m];
    try destruct (ToString h (nth 0 args VUndefined)) as [s|m'];
    cbn [snd dispatched sendToTransports];
    (split; [first [left; reflexivity | right; eexists; split; [reflexivity|]; simpl; auto]
            |first [left; reflexivity | right; eexists; split; [reflexivity|]; simpl; auto]]).
Qed.

(** The console is the first target of every dispatch of a logger that
    [createLogger] made, at any level and in any environment. *)
Theorem console_is_always_a_target (cfg : Config) (w0 w : world) (level : string)
  (message : value) (args : list value) (fs : fields) (e : value) :
  exists d others,
    dispatched (sendToTransports (fst (createLogger cfg w0)) level message args fs e w)
    = (dispatched w ++ [d])%list /\
    d_targets d = "console" :: others.
Proof.
  unfold sendToTransports, createLogger. cbn [fst dispatched transports].
  eexists. eexists. split; [reflexivity|]. reflexivity.
Qed.

Lemma shouldHandle_other_levels (this : Slack.SlackTransport) (level : string)
  (env : NODE_ENV) :
  ~ slack_level level -> Slack.shouldHandle this level env = false.
Proof.
  intros Hl. unfold Slack.shouldHandle.
  destruct (negb (truthy (Slack.enabled this)) || negb (truthy (Slack.webhookUrl this)));
    [reflexivity|].
  destruct (truthy (Slack.skipInDevelopment this) && isDevelopment env); [reflexivity|].
  destruct (existsb _ _) eqn:E; [|reflexivity].
  exfalso. apply Hl. apply ShouldHandleFacts.handled_levels. exact E.
Qed.

(** [log] and [info] of a logger without transports of the caller reach
    the console only, whatever the Slack configuration and the environment:
    one entry, the first argument as the message and the others as [args]. *)
Theorem log_info_reach_the_console_only (cfg : Config) (w0 w : world) (args : list value) :
  config_transports cfg = [] ->
  dispatched (log (fst (createLogger cfg w0)) args w) =
    (dispatched w ++
     [{| d_level := "log"; d_message := nth 0 args VUndefined; d_args := tl args;
         d_fields := []; d_error := VUndefined; d_targets := ["console"] |}])%list /\
  dispatched (info (fst (createLogger cfg w0)) args w) =
    (dispatched w ++
     [{| d_level := "info"; d_message := nth 0 args VUndefined; d_args := tl args;
         d_fields := []; d_error := VUndefined; d_targets := ["console"] |}])%list.
Proof.
  intros Hc. unfold log, info, sendToTransports, createLogger.
  cbn [fst dispatched transports]. rewrite Hc.
  destruct (truthy (Slack.cfg_webhookUrl (config_slack cfg)));
    cbn [app filter map transport_shouldHandle transport_name];
    rewrite ?shouldHandle_other_levels;
    try (split; reflexivity);
    unfold slack_level; intuition discriminate.
Qed.

Lemma log_info_reach_the_console_only_witness :
  dispatched (log production_logger [VString "started"; VNumber (Int 3000)]
                production_world) =
    [{| d_level := "log"; d_message := VString "started";
        d_args := [VNumber (Int 3000)];
        d_fields := []; d_error := VUndefined; d_targets := ["console"] |}].
Proof.
  apply (log_info_reach_the_console_only (config (Some "production")) (fresh_world None)
           production_world [VString "started"; VNumber (Int 3000)]).
  reflexivity.
Defined.

(** [sendToSlack] does not go around the severity gate: at the default level
    ([info]) and at every level that the Slack transport does not take, the
    transport's [send] returns at once and nothing is posted. *)
Theorem sendToSlack_gated (fuel : nat) (h : store) (l : logger)
  (this : Slack.SlackTransport) (r : SlackSend.Routes)
  (message fields customChannel : value) (level : option string) (env : NODE_ENV) :
  find_slack l = Some (SlackTransport this) ->
  (level = None \/ exists s, level = Some s /\ ~ slack_level s) ->
  sendToSlack fuel h l r message fields level customChannel env
  = Some (SlackSendOutcome SlackSend.Skipped).
Proof.
  intros Hf Hl. unfold sendToSlack, SlackSend.send. rewrite Hf.
  assert (E : Slack.shouldHandle this
                (match level with Some s => s | None => LogLevels.INFO end) env = false).
  { apply shouldHandle_other_levels. destruct Hl as [->|[s [-> Hs]]]; [|exact Hs].
    unfold slack_level, LogLevels.INFO. intuition discriminate. }
  rewrite E. reflexivity.
Qed.

Lemma sendToSlack_gated_witness :
  sendToSlack 7 [] production_logger default_routes (VString "deployed") VUndefined
    None (VString "releases") (Some "production")
  = Some (SlackSendOutcome SlackSend.Skipped).
Proof.
  apply (sendToSlack_gated 7 [] production_logger production_slack).
  - reflexivity.
  - left. reflexivity.
Defined.

(** *** Debug *)

Section DebugFacts.

Variable RegExp_search : string -> string -> completion bool.

(** With debug disabled nothing is allowed and [debug] touches nothing,
    whatever the filter, the text and the engine. *)
Theorem debug_disabled (h : store) (l : logger) (dbg : DebugConfig)
  (args : list value) (filterText : value) (w : world) :
  truthy (debug_enabled dbg) = false ->
  isDebugModeOn RegExp_search h dbg filterText = Return false /\
  debug RegExp_search h l dbg args w = (Return tt, w).
Proof.
  intros He. unfold isDebugModeOn, debug, isDebugAllowed. rewrite He. split; reflexivity.
Qed.

(** A filter that is an array without a truthy element allows no text: an
    empty list of patterns switches debug off, where no filter at all allows
    everything. *)
Theorem debug_filter_empty_array (h : store) (enabled filter filterText : value)
  (items : list value) :
  truthy enabled = true -> truthy filterText = true ->
  as_array h filter = Some items ->
  forallb (fun f => negb (truthy f)) items = true ->
  isDebugAllowed RegExp_search h enabled filter filterText = Return false /\
  isDebugAllowed RegExp_search h enabled VUndefined filterText = Return true.
Proof.
  intros He Ht Ha Hitems. unfold isDebugAllowed. rewrite He, Ht. simpl.
  split; [|reflexivity].
  assert (Tf : truthy filter = true /\ String.eqb (typeof h filter) "string" = false).
  { destruct filter; try discriminate Ha; simpl; [auto|].
    simpl in Ha. destruct (lookup h a) as [o|]; [|discriminate].
    destruct (obj_class o); try discriminate Ha; auto. }
  destruct Tf as [-> ->]. simpl. rewrite Ha.
  assert (E : List.filter truthy items = []).
  { clear Ha. induction items as [|x xs IH]; simpl in *; [reflexivity|].
    apply andb_true_iff in Hitems. destruct Hitems as [Hx Hxs].
    apply negb_true_iff in Hx. rewrite Hx. auto. }
  rewrite E. reflexivity.
Qed.

(** With a string as the filter and a string as the text, the answer is the
    engine's search, and when the engine rejects the pattern it is the plain,
    case-sensitive, containment of the filter in the text: no exception. *)
Theorem debug_filter_string (h : store) (enabled : value) (filter text : string) :
  truthy enabled = true -> filter <> "" -> text <> "" ->
  isDebugAllowed RegExp_search h enabled (VString filter) (VString text) =
  match RegExp_search filter text with
  | Return b => Return b
  | Throw _ => Return (includes text filter)
  end.
Proof.
  intros He Hf Ht. unfold isDebugAllowed, matches. rewrite He. simpl.
  destruct (String.eqb_spec filter ""); [contradiction|].
  destruct (String.eqb_spec text ""); [contradiction|]. simpl.
  destruct (RegExp_search filter text); reflexivity.
Qed.

(** With a filter set, a truthy text that is a number, [true], a BigInt or
    a symbol, primitives that have neither [match] nor [includes], makes
    [isDebugModeOn] and [debug] raise a TypeError, and nothing is
    dispatched. *)
Theorem debug_text_not_a_string (h : store) (l : logger) (dbg : DebugConfig)
  (filter : string) (text : value) (rest : list value) (w : world) :
  truthy (debug_enabled dbg) = true -> debug_filter dbg = VString filter ->
  filter <> "" -> truthy text = true -> without_methods text = true ->
  isDebugModeOn RegExp_search h dbg text = Throw "filterText.includes is not a function" /\
  debug RegExp_search h l dbg (text :: rest) w =
    (Throw "filterText.includes is not a function", w).
Proof.
  intros He Hf Hne Ht Hp.
  assert (E : isDebugAllowed RegExp_search h (debug_enabled dbg) (debug_filter dbg) text
              = Throw "filterText.includes is not a function").
  { assert (M : matches RegExp_search h text (VString filter)
                = Throw "filterText.includes is not a function").
    { unfold matches, call_includes_value.
      destruct text; try discriminate Hp; reflexivity. }
    unfold isDebugAllowed. rewrite He, Hf, Ht, M. simpl.
    destruct (String.eqb_spec filter ""); [contradiction | reflexivity]. }
  unfold isDebugModeOn, debug. simpl. rewrite E. split; reflexivity.
Qed.

End DebugFacts.

Lemma debug_disabled_witness :
  isDebugModeOn plain_search [] (mkDebugConfig VUndefined (VString "API")) (VString "[API] x")
  = Return false /\
  debug plain_search [] production_logger (mkDebugConfig VUndefined (VString "API"))
    [VString "[API] x"] production_world = (Return tt, production_world).
Proof.
  apply (debug_disabled plain_search [] production_logger
           (mkDebugConfig VUndefined (VString "API"))).
  reflexivity.
Defined.

Lemma debug_filter_empty_array_witness :
  isDebugAllowed plain_search [] (VBool true) (VArray []) (VString "[API] x")
  = Return false /\
  isDebugAllowed plain_search [] (VBool true) VUndefined (VString "[API] x")
  = Return true.
Proof.
  apply (debug_filter_empty_array plain_search [] (VBool true) (VArray [])
           (VString "[API] x") []); reflexivity.
Defined.

Lemma debug_filter_string_witness :
  isDebugAllowed no_search [] (VBool true) (VString "[API") (VString "[API] x")
  = Return true.
Proof.
  apply (debug_filter_string no_search [] (VBool true) "[API" "[API] x");
    solve [reflexivity | discriminate].
Defined.

Lemma debug_text_not_a_string_witness :
  isDebugModeOn plain_search [] (mkDebugConfig (VBool true) (VString "API"))
    (VNumber (Int 42)) = Throw "filterText.includes is not a function" /\
  debug plain_search [] production_logger (mkDebugConfig (VBool true) (VString "API"))
    [VNumber (Int 42)] production_world =
    (Throw "filterText.includes is not a function", production_world).
Proof.
  apply (debug_text_not_a_string plain_search [] production_logger
           (mkDebugConfig (VBool true) (VString "API")) "API" (VNumber (Int 42)) []);
    solve [reflexivity | discriminate].
Defined.

End FacadeFacts.

(** ** More on sanitizeFields *)

Module SanitizeMore.

Import Errors Slack Samples Vocabulary Reports MoreSamples SanitizeFacts.

Lemma assoc_related (x y : fields) (k : string) (v : value) :
  Forall2 (fun kv kv' =>
             fst kv' = fst kv /\ (primitive (snd kv) = true -> snd kv' = snd kv)) x y ->
  assoc k x = Some v -> primitive v = true -> assoc k y = Some v.
Proof.
  induction 1 as [|[k1 v1] [k2 v2] x y [Hk Hv] _ IH]; simpl; [discriminate|].
  simpl in Hk, Hv. subst k2.
  destruct (String.eqb k k1); [|exact IH].
  intros [= ->] Hp. rewrite (Hv Hp). reflexivity.
Qed.

(** In a store where no getter throws, for fields without the key
    [__proto__] (assigning to it sets the prototype of the result instead of
    adding a field): the result has the fields of the input one for one, in
    the same order and under the same keys, and where the value is a
    primitive (a string, a number, a boolean, null, undefined) it is the
    same value, whatever the other values are; so the keys are the same
    list and a primitive is found under its key. *)
Theorem sanitizeFields_keeps_keys_and_primitives (fuel : nat) (h : store) (x : fields) :
  7 <= fuel -> quiet h = true -> distinct_keys x -> ~ In "__proto__" (map fst x) ->
  exists y,
    sanitizeFields fuel h x = Some (Return y) /\
    Forall2 (fun kv kv' =>
               fst kv' = fst kv /\ (primitive (snd kv) = true -> snd kv' = snd kv))
            x y /\
    map fst y = map fst x /\
    (forall k v, assoc k x = Some v -> primitive v = true -> assoc k y = Some v).
Proof.
  intros Hfuel _ Hkeys _. unfold sanitizeFields.
  destruct (sanitize_entries_total fuel h Hfuel x [] []) as [y [Hy _]].
  destruct (sanitize_entries_shape fuel h x [] [] y Hy Hkeys) as [news [-> Hrel]].
  exists news. split; [exact Hy|]. simpl. split; [exact Hrel|]. split.
  - clear Hy Hkeys. induction Hrel as [|kv kv' x y [Hk _] _ IH]; simpl; congruence.
  - intros k v. apply assoc_related. exact Hrel.
Qed.

Lemma sanitizeFields_keeps_keys_and_primitives_witness :
  exists y,
    sanitizeFields 7 sample_store json_fields = Some (Return y) /\
    Forall2 (fun kv kv' =>
               fst kv' = fst kv /\ (primitive (snd kv) = true -> snd kv' = snd kv))
            json_fields y /\
    map fst y = map fst json_fields /\
    (forall k v, assoc k json_fields = Some v -> primitive v = true ->
                 assoc k y = Some v).
Proof.
  apply (sanitizeFields_keeps_keys_and_primitives 7 sample_store json_fields (le_n 7)).
  - reflexivity.
  - unfold distinct_keys. repeat constructor; simpl; intuition discriminate.
  - simpl. intuition discriminate.
Defined.



(** *** The output can be serialized *)

Lemma map_items_serializable (h : store) (F : value -> sanitizer value) :
  (forall item seen x seen',
     F item seen = Some (Return x, seen') -> JSON_stringify_throws h x = false) ->
  forall items seen xs seen',
    map_items F items seen = Some (Return xs, seen') ->
    Forall (fun x => JSON_stringify_throws h x = false) xs.
Proof.
  intros HF. induction items as [|item rest IH]; intros seen xs seen'; simpl.
  - intros [= <- _]. constructor.
  - destruct (F item seen) as [[[x|m] sa]|] eqn:E; try discriminate.
    destruct (map_items F rest sa) as [[[ys|m] sb]|] eqn:E'; try discriminate.
    intros [= <- _]. constructor; [eapply HF; exact E | eapply IH; exact E'].
Qed.

Lemma array_serializable (h : store) (xs : list value) :
  Forall (fun x => JSON_stringify_throws h x = false) xs ->
  JSON_stringify_throws h (VArray xs) = false.
Proof.
  unfold JSON_stringify_throws. intros H. rewrite stringify_throws_eq.
  induction H as [|x xs Hx _ IH]; cbn [existsb]; [reflexivity|].
  rewrite Hx, IH. reflexivity.
Qed.

Lemma non_serializable_serializable (h : store) (v x : value) :
  instanceof_Error h v = false ->
  non_serializable h v = Return x -> JSON_stringify_throws h x = false.
Proof.
  intros Hi H. unfold non_serializable in H. rewrite Hi in H.
  destruct (constructor_name h v) as [c|m]; [|discriminate]. cbn [bind] in H.
  destruct (ToString h (or_else c (VString "Object"))) as [s|m]; [|discriminate].
  injection H as <-. reflexivity.
Qed.

Lemma sanitizeValue_serializable (fuel : nat) (h : store) :
  errors_serializable h ->
  forall (v : value) (depth : nat) (seen : list addr) (x : value) (seen' : list addr),
    sanitizeValue fuel h v depth seen = Some (Return x, seen') ->
    JSON_stringify_throws h x = false.
Proof.
  intros Herr. induction fuel as [|fuel IH]; intros v depth seen x seen' H;
    [discriminate|].
  rewrite sanitizeValue_S in H.
  destruct (Nat.ltb 5 depth); [injection H as <- _; reflexivity|].
  assert (Hkept : forall y,
             (if String.eqb (typeof h y) "object"
              then if seen_has y seen
                   then Some (Return (VString "[Circular Reference]"), seen)
                   else if JSON_stringify_throws h y
                        then Some (non_serializable h y, seen_add y seen)
                        else Some (Return y, seen_add y seen)
              else Some (try_catch (s <- String_ h y ;; Return (VString s))
                           (fun _ => Return (VString "[Unable to convert to string]")),
                         seen))
             = Some (Return x, seen') ->
             JSON_stringify_throws h x = false).
  { intros y Hy. destruct (String.eqb (typeof h y) "object").
    - destruct (seen_has y seen); [injection Hy as <- _; reflexivity|].
      destruct (JSON_stringify_throws h y) eqn:Ey.
      + injection Hy as Hy _.
        destruct (instanceof_Error h y) eqn:Ei.
        * destruct y; try discriminate Ei. rewrite (Herr a Ei) in Ey. discriminate.
        * eapply non_serializable_serializable; eassumption.
      + injection Hy as <- _. exact Ey.
    - destruct (String_ h y); injection Hy as <- _; reflexivity. }
  destruct v; try (injection H as <- _; reflexivity).
  all: destruct (as_array h _) as [elems|];
    [|match type of H with context [typeof _ ?y] => exact (Hkept y H) end].
  all: destruct (map_items _ elems seen) as [[[xs|m] sa]|] eqn:E; try discriminate.
  all: injection H as <- _; apply array_serializable.
  all: eapply map_items_serializable; [|exact E].
  all: intros item sb y sb'; apply IH.
Qed.

Lemma sanitize_entries_serializable (fuel : nat) (h : store) :
  errors_serializable h ->
  forall (entries acc : fields) (seen : list addr) (out : fields),
    Forall (fun kv => JSON_stringify_throws h (snd kv) = false) acc ->
    sanitize_entries fuel h entries acc seen = Some (Return out) ->
    Forall (fun kv => JSON_stringify_throws h (snd kv) = false) out.
Proof.
  intros Herr. induction entries as [|[key v] rest IH]; intros acc seen out Hacc H.
  - injection H as <-. exact Hacc.
  - cbn [sanitize_entries] in H.
    destruct (sanitizeValue fuel h v 0 seen) as [[c seen']|] eqn:E; [|discriminate].
    destruct c as [x|m]; cbn [try_catch] in H.
    + eapply IH; [|exact H].
      apply (obj_set_Forall (fun x => JSON_stringify_throws h x = false)); [exact Hacc|].
      eapply sanitizeValue_serializable; eassumption.
    + eapply IH; [|exact H].
      apply (obj_set_Forall (fun x => JSON_stringify_throws h x = false)); [exact Hacc|].
      reflexivity.
Qed.

(** What [sanitizeFields] returns can be serialized: [JSON.stringify]
    accepts every value of the result, provided it accepts the [Error] objects
    that the input can reach (an [Error] that cannot be serialized is rebuilt
    from its [name], [message] and [stack], which are copied as they are). *)
Theorem sanitizeFields_output_serializable (fuel : nat) (h : store) (x y : fields) :
  errors_serializable h ->
  sanitizeFields fuel h x = Some (Return y) ->
  Forall (fun kv => JSON_safe h (snd kv)) y.
Proof.
  intros Herr H. unfold JSON_safe.
  apply (sanitize_entries_serializable fuel h Herr x [] [] y); [constructor | exact H].
Qed.

Lemma sanitizeFields_output_serializable_witness :
  Forall (fun kv => JSON_safe sample_store (snd kv))
    [("a", VString "[Non-serializable Object]");
     ("b", VArray [VNumber (Int 1); VArray [VNumber (Int 1); VArray [VNumber (Int 1);
           VArray [VNumber (Int 1); VArray [VNumber (Int 1);
           VArray [VString "[Max depth reached]";
                   VString "[Max depth reached]"]]]]]])].
Proof.
  apply (sanitizeFields_output_serializable 7 sample_store cyclic_fields).
  - intros a. unfold instanceof_Error, sample_store, lookup.
    destruct a as [|[|[|[|a]]]]; simpl; try discriminate.
    destruct a; discriminate.
  - reflexivity.
Defined.

End SanitizeMore.

(** ** The Slack transport: routing *)

Module SlackSendFacts.

Import Environment Errors Samples Vocabulary Reports MoreSamples.
Import Slack SlackSend.

Lemma mapToSlackLevel_eq (level : string) :
  mapToSlackLevel level
  = if String.eqb level "error-background" then "error-bg" else level.
Proof.
  unfold mapToSlackLevel, LogLevels.ERROR_BACKGROUND, LogLevels.ERROR, LogLevels.WARN,
    LogLevels.INFO, SlackLevels.ERROR_BACKGROUND, SlackLevels.ERROR, SlackLevels.WARN,
    SlackLevels.INFO.
  destruct (String.eqb_spec level "error-background") as [->|_]; [reflexivity|].
  destruct (String.eqb_spec level "error") as [->|_]; [reflexivity|].
  destruct (String.eqb_spec level "warn") as [->|_]; [reflexivity|].
  destruct (String.eqb_spec level "info") as [->|_]; reflexivity.
Qed.

(** [mapToSlackLevel] renames one level only, [error-background] to
    [error-bg]; mapping twice is mapping once; and the transport takes a level
    exactly when it takes the Slack name of the level. *)
Theorem mapToSlackLevel_renames (this : SlackTransport) (level : string) (env : NODE_ENV) :
  mapToSlackLevel level
  = (if String.eqb level "error-background" then "error-bg" else level)
  /\ mapToSlackLevel (mapToSlackLevel level) = mapToSlackLevel level
  /\ shouldHandle this (mapToSlackLevel level) env = shouldHandle this level env.
Proof.
  split; [apply mapToSlackLevel_eq|].
  rewrite (mapToSlackLevel_eq level).
  destruct (String.eqb_spec level "error-background") as [->|Hl].
  - split; [reflexivity|]. unfold shouldHandle.
    destruct (negb (truthy (enabled this)) || negb (truthy (webhookUrl this)));
      [reflexivity|].
    destruct (truthy (skipInDevelopment this) && isDevelopment env); reflexivity.
  - split; [|reflexivity]. rewrite mapToSlackLevel_eq.
    destruct (String.eqb_spec level "error-background"); [contradiction | reflexivity].
Qed.

(** Only [warn], [error] and [error-background] can have a webhook of their
    own: every other level, the Slack name [error-bg] included, is posted to
    the default webhook whatever [webhookUrls] holds. *)
Theorem getWebhookUrl_default (h : store) (this : SlackTransport) (r : Routes)
  (level : string) :
  level <> "warn" -> level <> "error" -> level <> "error-background" ->
  getWebhookUrl h this r level = Return (webhookUrl this).
Proof.
  intros Hw He Hb.
  unfold getWebhookUrl, LogLevels.WARN, LogLevels.ERROR, LogLevels.ERROR_BACKGROUND.
  destruct (String.eqb_spec level "warn"); [contradiction|].
  destruct (String.eqb_spec level "error"); [contradiction|].
  destruct (String.eqb_spec level "error-background"); [contradiction|].
  reflexivity.
Qed.

Lemma getWebhookUrl_default_witness :
  getWebhookUrl [] production_slack override_routes "error-bg"
  = Return (VString "https://hooks.slack.com/services/T/B/X").
Proof.
  apply (getWebhookUrl_default [] production_slack override_routes "error-bg");
    discriminate.
Defined.

(** An [error] entry of [webhookUrls] that is set is the webhook of both
    [error] and [error-background]. *)
Theorem getWebhookUrl_error_override (h : store) (this : SlackTransport) (r : Routes)
  (urls : fields) (u : value) :
  webhookUrls r = VObject urls -> assoc "error" urls = Some u -> truthy u = true ->
  getWebhookUrl h this r "error" = Return u /\
  getWebhookUrl h this r "error-background" = Return u.
Proof.
  intros Hr Hu Ht. unfold getWebhookUrl. rewrite Hr.
  cbn [LogLevels.WARN LogLevels.ERROR LogLevels.ERROR_BACKGROUND String.eqb Ascii.eqb
       Bool.eqb orb bind Get truthy].
  rewrite Hu. cbn [bind]. rewrite Ht. split; reflexivity.
Qed.

Lemma getWebhookUrl_error_override_witness :
  getWebhookUrl [] production_slack override_routes "error"
  = Return (VString "https://hooks.slack.com/services/errors") /\
  getWebhookUrl [] production_slack override_routes "error-background"
  = Return (VString "https://hooks.slack.com/services/errors").
Proof.
  apply (getWebhookUrl_error_override [] production_slack override_routes
           [("error", VString "https://hooks.slack.com/services/errors")]);
    reflexivity.
Defined.

Lemma with_hash_string (h : store) (what c : string) :
  with_hash h what (VString c) = Return (VString (hashed c)).
Proof.
  unfold with_hash, call_startsWith, hashed. cbn [bind].
  destruct (String.prefix "#" c); reflexivity.
Qed.

Lemma hashed_prefix (c : string) : String.prefix "#" (hashed c) = true.
Proof.
  unfold hashed. destruct (String.prefix "#" c) eqn:E; [exact E|].
  simpl. destruct c; reflexivity.
Qed.

Lemma hashed_truthy (c : string) : c <> "" -> truthy (VString (hashed c)) = true.
Proof.
  intros Hc. unfold hashed. destruct (String.prefix "#" c).
  - destruct c; [congruence | reflexivity].
  - reflexivity.
Qed.

Lemma getChannel_string (h : store) (r : Routes) (level c : string) :
  c <> "" -> getChannel h r level (VString c) = Return (VString (hashed c)).
Proof.
  intros Hc. unfold getChannel.
  destruct c as [|a c']; [congruence|]. cbn [truthy String.eqb negb].
  apply with_hash_string.
Qed.

(** A custom channel that is a non-empty string goes before the channel of
    the level: it is returned with a leading [#], added when it is missing,
    whatever the level and the configured channels are; passing the result
    again returns it unchanged. *)
Theorem getChannel_custom (h : store) (r : Routes) (level level' c : string) :
  c <> "" ->
  getChannel h r level (VString c) = Return (VString (hashed c)) /\
  String.prefix "#" (hashed c) = true /\
  (String.prefix "#" c = true -> hashed c = c) /\
  getChannel h r level' (VString (hashed c)) = Return (VString (hashed c)).
Proof.
  intros Hc. split; [apply getChannel_string; exact Hc|].
  split; [apply hashed_prefix|].
  split; [unfold hashed; intros ->; reflexivity|].
  rewrite getChannel_string.
  - unfold hashed at 1. rewrite hashed_prefix. reflexivity.
  - intros E. pose proof (hashed_truthy c Hc) as Ht. rewrite E in Ht. discriminate.
Qed.

Lemma getChannel_custom_witness :
  getChannel [] channel_routes "warn" (VString "alerts") = Return (VString "#alerts") /\
  String.prefix "#" "#alerts" = true /\
  (String.prefix "#" "alerts" = true -> "#alerts" = "alerts") /\
  getChannel [] channel_routes "error" (VString "#alerts") = Return (VString "#alerts").
Proof.
  apply (getChannel_custom [] channel_routes "warn" "error" "alerts"). discriminate.
Defined.

(** The channel of [error-background] is configured under the Slack name
    [error-bg]: a level and its Slack name get the same channel, and without
    an [error-bg] entry [error-background] gets no channel, whatever
    [channels] holds under [error-background]. *)
Theorem getChannel_background_key (h : store) (r : Routes) (chans : fields)
  (customChannel : value) :
  truthy customChannel = false ->
  channels r = VObject chans -> assoc "error-bg" chans = None ->
  getChannel h r "error-background" customChannel = Return VUndefined /\
  getChannel h r "error-bg" customChannel = Return VUndefined.
Proof.
  intros Hc Hr Hk. unfold getChannel. rewrite Hc, Hr.
  change (mapToSlackLevel "error-background") with "error-bg".
  change (mapToSlackLevel "error-bg") with "error-bg".
  cbn [Get]. rewrite Hk. split; reflexivity.
Qed.

Lemma getChannel_background_key_witness :
  getChannel [] override_routes "error-background" VUndefined = Return VUndefined /\
  getChannel [] override_routes "error-bg" VUndefined = Return VUndefined.
Proof.
  apply (getChannel_background_key [] override_routes
           [("error-background", VString "#background")] VUndefined);
    reflexivity.
Defined.

(** A custom channel that is a number, [true] or another truthy value
    without [startsWith] makes [getChannel] raise inside the [try] block of
    [send]: the entry is not posted and the failure is only written to the
    console, whatever the message and the fields are. *)
Theorem send_custom_channel_not_a_string (fuel : nat) (h : store)
  (this : SlackTransport) (r : Routes) (level : string)
  (message fs error customChannel u : value) (env : NODE_ENV) :
  shouldHandle this level env = true ->
  getWebhookUrl h this r level = Return u ->
  primitive customChannel = true -> truthy customChannel = true ->
  (forall s, customChannel <> VString s) ->
  send fuel h this r level message fs error customChannel env
  = Some (Failed "customChannel.startsWith is not a function").
Proof.
  intros Hh Hu Hp Ht Hs. unfold send. rewrite Hh. cbn [negb].
  unfold prepare. rewrite Hu. cbn [bind]. unfold getChannel. rewrite Ht.
  unfold with_hash, call_startsWith.
  destruct customChannel; try discriminate Hp; try discriminate Ht;
    try reflexivity.
  exfalso. eapply Hs. reflexivity.
Qed.

Lemma send_custom_channel_not_a_string_witness :
  send 7 [] production_slack default_routes "error" (VString "down") VUndefined
    VUndefined (VNumber (Int 42)) (Some "production")
  = Some (Failed "customChannel.startsWith is not a function").
Proof.
  apply (send_custom_channel_not_a_string 7 [] production_slack default_routes "error"
           (VString "down") VUndefined VUndefined (VNumber (Int 42))
           (VString "https://hooks.slack.com/services/T/B/X"));
    solve [reflexivity | discriminate].
Defined.

(** The default [fields = {}] stands in for [undefined] only: with
    [fields: null] reading [fields.errorFormatInvalid] raises inside the [try]
    block and nothing is posted. *)
Theorem send_fields_null (fuel : nat) (h : store) (this : SlackTransport) (r : Routes)
  (level : string) (message error customChannel u ch : value) (env : NODE_ENV) :
  shouldHandle this level env = true ->
  getWebhookUrl h this r level = Return u ->
  getChannel h r level customChannel = Return ch ->
  send fuel h this r level message VNull error customChannel env
  = Some (Failed "Cannot read properties of null (reading 'errorFormatInvalid')").
Proof.
  intros Hh Hu Hc. unfold send. rewrite Hh. cbn [negb].
  unfold prepare. rewrite Hu, Hc. reflexivity.
Qed.

Lemma send_fields_null_witness :
  send 7 [] production_slack default_routes "warn" (VString "slow") VNull VUndefined
    VUndefined (Some "production")
  = Some (Failed "Cannot read properties of null (reading 'errorFormatInvalid')").
Proof.
  apply (send_fields_null 7 [] production_slack default_routes "warn" (VString "slow")
           VUndefined VUndefined (VString "https://hooks.slack.com/services/T/B/X")
           VUndefined);
    reflexivity.
Defined.

End SlackSendFacts.

(** ** From the facade to the transports *)

Module DeliveryFacts.

Import Environment Errors Logger Facade Samples Vocabulary Reports MoreSamples.
Import SanitizeFacts SanitizeMore SlackSendFacts.

(** [log], [info]: the console method is called with the arguments of the
    call, in their order; with no argument at all it is called with
    [undefined]. [log] goes to [console.log] and [info] to [console.info]. *)
Theorem log_info_print_their_arguments (l : logger) (args : list value) (w : world) :
  (exists d, dispatched (log l args w) = (dispatched w ++ [d])%list /\
             console_delivery d
             = {| Console.call_method := Console.console_log;
                  Console.call_arguments := printed args |}) /\
  (exists d, dispatched (info l args w) = (dispatched w ++ [d])%list /\
             console_delivery d
             = {| Console.call_method := Console.console_info;
                  Console.call_arguments := printed args |}).
Proof.
  split; eexists; (split; [reflexivity|]);
    unfold console_delivery, Console.send; destruct args; reflexivity.
Qed.

(** [addTransport] appends: every entry is sent to the transports it was
    sent to before, then to the new one if that takes the level; and
    [sendToSlack] keeps using the first transport named [slack]. *)
Theorem addTransport_appends (l : logger) (t : transport) (level : string)
  (message error : value) (args : list value) (fs : fields) (w : world) :
  getTransports (addTransport l t) = (getTransports l ++ [t])%list /\
  (exists d d',
     dispatched (sendToTransports l level message args fs error w)
     = (dispatched w ++ [d])%list /\
     dispatched (sendToTransports (addTransport l t) level message args fs error w)
     = (dispatched w ++ [d'])%list /\
     d_targets d'
     = (d_targets d
        ++ (if transport_shouldHandle t level (process_env_NODE_ENV w)
            then [transport_name t] else []))%list) /\
  find_slack (addTransport l t)
  = match find_slack l with
    | Some s => Some s
    | None => if String.eqb (transport_name t) "slack" then Some t else None
    end.
Proof.
  split; [reflexivity|]. split.
  - eexists. eexists. split; [reflexivity|]. split; [reflexivity|].
    cbn [d_targets addTransport transports]. rewrite filter_app, map_app.
    cbn [filter]. destruct (transport_shouldHandle t level (process_env_NODE_ENV w));
      reflexivity.
  - unfold find_slack, addTransport. cbn [transports].
    induction (transports l) as [|t0 ts IH]; cbn [app find].
    + destruct (String.eqb (transport_name t) "slack"); reflexivity.
    + destruct (String.eqb (transport_name t0) "slack"); [reflexivity | exact IH].
Qed.

(** An entry without an error object: the post holds the message itself and
    the sanitized fields, the application name first. *)
Lemma send_plain (fuel : nat) (h : store) (this : Slack.SlackTransport)
  (r : SlackSend.Routes) (level : string) (message error customChannel u ch : value)
  (fs : fields) (env : NODE_ENV) :
  7 <= fuel ->
  truthy error = false ->
  Slack.shouldHandle this level env = true ->
  SlackSend.getWebhookUrl h this r level = Return u ->
  SlackSend.getChannel h r level customChannel = Return ch ->
  exists y,
    Slack.sanitizeFields fuel h
      (spread (SlackSend.set_if_truthy [] "appName" (Slack.appName this)) fs)
    = Some (Return y) /\
    SlackSend.send fuel h this r level message (VObject fs) error customChannel env
    = Some (SlackSend.Posted u
              {| SlackSend.p_channel := if truthy ch then Some ch else None;
                 SlackSend.p_text := message;
                 SlackSend.p_fields := y |}).
Proof.
  intros Hfuel He Hh Hu Hc.
  destruct (sanitize_entries_total fuel h Hfuel
              (spread (SlackSend.set_if_truthy [] "appName" (Slack.appName this)) fs)
              [] []) as [y [E _]].
  exists y. split; [exact E|].
  unfold SlackSend.send. rewrite Hh. cbn [negb].
  unfold SlackSend.prepare. rewrite Hu, Hc. cbn [bind Get].
  destruct (assoc "errorFormatInvalid" fs); cbn [bind SlackSend.own_enumerable];
    rewrite He, andb_false_r; cbn [bind];
    unfold Slack.sanitizeFields; rewrite E; reflexivity.
Qed.

(** [sendToSlack] with a custom channel, at a level the transport takes:
    the entry is posted to the webhook of the level, in the custom channel
    with its leading [#], with the message as it is and the sanitized
    fields. *)
Theorem sendToSlack_custom_channel (fuel : nat) (h : store) (l : logger)
  (this : Slack.SlackTransport) (r : SlackSend.Routes) (level c : string)
  (message u : value) (fs : fields) (env : NODE_ENV) :
  7 <= fuel ->
  find_slack l = Some (SlackTransport this) ->
  Slack.shouldHandle this level env = true ->
  SlackSend.getWebhookUrl h this r level = Return u ->
  c <> "" ->
  exists y,
    Slack.sanitizeFields fuel h
      (spread (SlackSend.set_if_truthy [] "appName" (Slack.appName this)) fs)
    = Some (Return y) /\
    sendToSlack fuel h l r message (VObject fs) (Some level) (VString c) env
    = Some (SlackSendOutcome
              (SlackSend.Posted u
                 {| SlackSend.p_channel := Some (VString (hashed c));
                    SlackSend.p_text := message;
                    SlackSend.p_fields := y |})).
Proof.
  intros Hfuel Hf Hh Hu Hc.
  destruct (send_plain fuel h this r level message VUndefined (VString c) u
              (VString (hashed c)) fs env Hfuel eq_refl Hh Hu
              (getChannel_string h r level c Hc)) as [y [E S]].
  exists y. split; [exact E|].
  unfold sendToSlack. rewrite Hf, S, (hashed_truthy c Hc). reflexivity.
Qed.

Lemma sendToSlack_custom_channel_witness :
  exists y,
    Slack.sanitizeFields 7 [] [("appName", VString "app"); ("build", VNumber (Int 7))]
    = Some (Return y) /\
    sendToSlack 7 [] production_logger default_routes (VString "deployed")
      (VObject [("build", VNumber (Int 7))]) (Some "warn") (VString "releases")
      (Some "production")
    = Some (SlackSendOutcome
              (SlackSend.Posted (VString "https://hooks.slack.com/services/T/B/X")
                 {| SlackSend.p_channel := Some (VString "#releases");
                    SlackSend.p_text := VString "deployed";
                    SlackSend.p_fields := y |})).
Proof.
  apply (sendToSlack_custom_channel 7 [] production_logger production_slack
           default_routes "warn" "releases" (VString "deployed")
           (VString "https://hooks.slack.com/services/T/B/X")
           [("build", VNumber (Int 7))] (Some "production"));
    solve [reflexivity | discriminate | repeat constructor].
Defined.

(** The [customChannel] option of [warn] does not route the entry:
    [sendToTransports] hands the transports no [customChannel], so the Slack
    transport posts in the channel configured for [warn] (or the webhook's
    own), and the option only shows among the fields. *)
Theorem warn_custom_channel_is_a_field (fuel : nat) (h : store) (l : logger)
  (this : Slack.SlackTransport) (r : SlackSend.Routes) (message u ch : value)
  (c : string) (w : world) (env : NODE_ENV) :
  7 <= fuel ->
  Slack.shouldHandle this "warn" env = true ->
  SlackSend.getWebhookUrl h this r "warn" = Return u ->
  SlackSend.getChannel h r "warn" VUndefined = Return ch ->
  exists d data,
    warn h l [message; VObject [("customChannel", VString c)]] w
    = (Return tt,
       {| process_env_NODE_ENV := process_env_NODE_ENV w;
          traces := traces w;
          dispatched := (dispatched w ++ [d])%list |}) /\
    slack_delivery fuel h this r d env = Some (Return (SlackSend.Posted u data)) /\
    SlackSend.p_channel data = (if truthy ch then Some ch else None) /\
    SlackSend.p_text data = message /\
    assoc "customChannel" (SlackSend.p_fields data) = Some (VString c).
Proof.
  intros Hfuel Hh Hu Hc.
  destruct (send_plain fuel h this r "warn" message VUndefined VUndefined u ch
              [("customChannel", VString c)] env Hfuel eq_refl Hh Hu Hc)
    as [y [E S]].
  exists {| d_level := "warn";
            d_message := message;
            d_args := [VObject [("customChannel", VString c)]];
            d_fields := [("customChannel", VString c)];
            d_error := VUndefined;
            d_targets :=
              map transport_name
                (filter (fun t => transport_shouldHandle t "warn" (process_env_NODE_ENV w))
                        (transports l)) |}.
  exists {| SlackSend.p_channel := if truthy ch then Some ch else None;
            SlackSend.p_text := message;
            SlackSend.p_fields := y |}.
  split; [reflexivity|]. split.
  - unfold slack_delivery. cbn [d_fields d_error d_level d_message entry_fields
      extractErrorFields truthy negb bind spread fold_left].
    rewrite S. reflexivity.
  - split; [reflexivity|]. split; [reflexivity|]. cbn [SlackSend.p_fields].
    unfold Slack.sanitizeFields in E.
    destruct (sanitize_entries_shape fuel h _ [] [] y E) as [news [-> Hrel]].
    + unfold SlackSend.set_if_truthy. destruct (truthy (Slack.appName this));
        repeat constructor; simpl; intuition discriminate.
    + apply (assoc_related _ _ _ _ Hrel); [|reflexivity].
      unfold SlackSend.set_if_truthy. destruct (truthy (Slack.appName this));
        reflexivity.
Qed.

Lemma warn_custom_channel_is_a_field_witness :
  exists d data,
    warn [] production_logger
      [VString "slow"; VObject [("customChannel", VString "alerts")]] production_world
    = (Return tt,
       {| process_env_NODE_ENV := process_env_NODE_ENV production_world;
          traces := traces production_world;
          dispatched := (dispatched production_world ++ [d])%list |}) /\
    slack_delivery 7 [] production_slack default_routes d (Some "production")
    = Some (Return (SlackSend.Posted
                      (VString "https://hooks.slack.com/services/T/B/X") data)) /\
    SlackSend.p_channel data = None /\
    SlackSend.p_text data = VString "slow" /\
    assoc "customChannel" (SlackSend.p_fields data) = Some (VString "alerts").
Proof.
  apply (warn_custom_channel_is_a_field 7 [] production_logger production_slack
           default_routes (VString "slow")
           (VString "https://hooks.slack.com/services/T/B/X") VUndefined "alerts"
           production_world (Some "production"));
    solve [reflexivity | repeat constructor].
Defined.

(** [error(message, e)] with a non-empty string [e] where the error object
    belongs: the entry is dispatched at [error] with [e] as its error, and the
    Slack transport posts the message followed by the notice about the error
    format, with the fields that explain it: the issue found by
    [extractErrorFields], the original message, the type [String] and the
    raw value [e]. *)
Theorem error_invalid_format_is_explained (fuel : nat) (h : store) (l : logger)
  (this : Slack.SlackTransport) (r : SlackSend.Routes) (m e : string) (u ch : value)
  (w : world) (env : NODE_ENV) :
  7 <= fuel -> e <> "" ->
  errorsToTreatAsWarnings l = DEFAULT_WARNING_PATTERNS ->
  Slack.shouldHandle this "error" env = true ->
  SlackSend.getWebhookUrl h this r "error" = Return u ->
  SlackSend.getChannel h r "error" VUndefined = Return ch ->
  exists d data,
    error h l [VString m; VString e] w
    = (Return tt,
       {| process_env_NODE_ENV := process_env_NODE_ENV w;
          traces := traces w;
          dispatched := (dispatched w ++ [d])%list |}) /\
    slack_delivery fuel h this r d env = Some (Return (SlackSend.Posted u data)) /\
    SlackSend.p_channel data = (if truthy ch then Some ch else None) /\
    SlackSend.p_text data = VString (m ++ SlackSend.format_notice) /\
    assoc "errorFormatIssue" (SlackSend.p_fields data)
    = Some (VString "Expected error to be an object, but received string") /\
    assoc "originalMessage" (SlackSend.p_fields data) = Some (VString m) /\
    assoc "errorType" (SlackSend.p_fields data) = Some (VString "String") /\
    assoc "errorRawValue" (SlackSend.p_fields data) = Some (VString e).
Proof.
  intros Hfuel He Hp Hh Hu Hc. destruct e as [|a e']; [congruence|].
  exists {| d_level := "error";
            d_message := VString m;
            d_args := [VString (String a e')];
            d_fields := [];
            d_error := VString (String a e');
            d_targets :=
              map transport_name
                (filter (fun t => transport_shouldHandle t "error" (process_env_NODE_ENV w))
                        (transports l)) |}.
  unfold slack_delivery.
  cbn [d_fields d_error d_level d_message].
  assert (EF : entry_fields h [] (VString (String a e'))
               = Return [("errorFormatInvalid", VBool true);
                         ("errorFormatError",
                          VString "Expected error to be an object, but received string");
                         ("errorRawValue", VString (String a e'))])
    by reflexivity.
  rewrite EF. clear EF.
  remember (SlackSend.send fuel h this r "error" (VString m)
              (VObject [("errorFormatInvalid", VBool true);
                        ("errorFormatError",
                         VString "Expected error to be an object, but received string");
                        ("errorRawValue", VString (String a e'))])
              (VString (String a e')) VUndefined env) as o eqn:S0.
  unfold SlackSend.send in S0. rewrite Hh in S0. cbn [negb] in S0.
  unfold SlackSend.prepare in S0. rewrite Hu, Hc in S0.
  cbn -[Slack.sanitizeFields SlackSend.format_notice String.append] in S0.
  unfold SlackSend.set_if_truthy, Slack.sanitizeFields in S0.
  destruct (truthy (Slack.appName this));
    cbn [obj_set String.eqb Ascii.eqb Bool.eqb] in S0;
    match type of S0 with
    | context [Slack.sanitize_entries fuel h ?X [] []] =>
        destruct (sanitize_entries_total fuel h Hfuel X [] []) as [y [E _]];
        (destruct (sanitize_entries_shape fuel h X [] [] y E) as [news [-> Hrel]];
         [repeat constructor; simpl; intuition discriminate|])
    end;
    rewrite E in S0; subst o; eexists;
    (split; [unfold error, validateErrorArgs, treated_as_warning; rewrite Hp; reflexivity|]);
    (split; [reflexivity|]);
    cbn [SlackSend.p_channel SlackSend.p_text SlackSend.p_fields app];
    repeat split; apply (assoc_related _ _ _ _ Hrel); reflexivity.
Qed.

Lemma error_invalid_format_is_explained_witness :
  exists d data,
    error [] production_logger [VString "Payment failed"; VString "boom"] production_world
    = (Return tt,
       {| process_env_NODE_ENV := process_env_NODE_ENV production_world;
          traces := traces production_world;
          dispatched := (dispatched production_world ++ [d])%list |}) /\
    slack_delivery 7 [] production_slack default_routes d (Some "production")
    = Some (Return (SlackSend.Posted
                      (VString "https://hooks.slack.com/services/T/B/X") data)) /\
    SlackSend.p_channel data = None /\
    SlackSend.p_text data = VString ("Payment failed" ++ SlackSend.format_notice) /\
    assoc "errorFormatIssue" (SlackSend.p_fields data)
    = Some (VString "Expected error to be an object, but received string") /\
    assoc "originalMessage" (SlackSend.p_fields data) = Some (VString "Payment failed") /\
    assoc "errorType" (SlackSend.p_fields data) = Some (VString "String") /\
    assoc "errorRawValue" (SlackSend.p_fields data) = Some (VString "boom").
Proof.
  apply (error_invalid_format_is_explained 7 [] production_logger production_slack
           default_routes "Payment failed" "boom"
           (VString "https://hooks.slack.com/services/T/B/X") VUndefined
           production_world (Some "production"));
    solve [reflexivity | discriminate | repeat constructor].
Defined.

End DeliveryFacts.
